(** * TextSumm: the dataset layer of [textsumm.models.transformers.datasets]

    A shallow embedding of [datasets.py] and the verification of its
    specification.  The Python module has four parts:

    - [_preprocess], the preprocessing primitive;
    - [parallel_preprocess], which maps the primitive over a list with a
      [multiprocessing.Pool];
    - [SummarizationDataset], the materialized, indexable dataset;
    - [IterableSummarizationDataset], the streaming dataset built from
      generators.

    Python values are embedded in one dynamically typed universe [pyval];
    exceptions are values of [exn] carried by [result]; generators are
    explicit state machines; the one method that mutates its receiver and
    returns it, [shorten], works on a store of objects. *)

From stdpp Require Import gmap strings list.

Open Scope Z_scope.

(** ** Python values and exceptions *)

(** The values that flow through the dataset layer: text, lists (of
    sentences, of tokens, of token lists) and the pair that [_preprocess]
    returns when a tokenizer is given. *)
#[warnings="-register-all"]
Inductive pyval : Type :=
  | PStr (s : string)
  | PList (l : list pyval)
  | PTuple (a b : pyval).

Inductive exn : Type :=
  | ValueError
  | AssertionError
  | AttributeError
  | IndexError
  | TypeError
  | ZeroDivisionError
  | FileNotFoundError
  | ReferenceError.

Inductive result (A : Type) : Type :=
  | Ok (a : A)
  | Err (e : exn).
Arguments Ok {A} a.
Arguments Err {A} e.

#[global] Instance result_ret : MRet result := λ A a, Ok a.
#[global] Instance result_bind : MBind result := λ A B f m,
  match m with
  | Ok a => f a
  | Err e => Err e
  end.

(** A Python object reference that may be [None]. *)
Abbreviation pyobj := (option pyval).

(** [len(x)] *)
Definition py_len (x : pyval) : nat :=
  match x with
  | PStr s => String.length s
  | PList l => length l
  | PTuple _ _ => 2%nat
  end.

Fixpoint chars (s : string) : list pyval :=
  match s with
  | EmptyString => []
  | String c s' => PStr (String c EmptyString) :: chars s'
  end.

(** [iter(x)]: a string iterates over its characters, a list or a tuple
    over its elements. *)
Definition py_iter (x : pyval) : list pyval :=
  match x with
  | PStr s => chars s
  | PList l => l
  | PTuple a b => [a; b]
  end.

(** [l[idx]] on a Python list: a negative index counts from the end, an
    index out of range raises [IndexError]. *)
Definition list_getitem {A : Type} (l : list A) (idx : Z) : result A :=
  let n := Z.of_nat (length l) in
  let i := if decide (idx < 0) then idx + n else idx in
  if decide (0 ≤ i < n) then
    match l !! Z.to_nat i with
    | Some x => Ok x
    | None => Err IndexError
    end
  else Err IndexError.

(** [x[idx]] *)
Definition py_getitem (x : pyval) (idx : Z) : result pyval :=
  list_getitem (py_iter x) idx.

(** [len(x)] and [x[idx]] on a reference that may be [None]. *)
Definition obj_len (x : pyobj) : result nat :=
  match x with
  | Some v => Ok (py_len v)
  | None => Err TypeError
  end.

Definition obj_getitem (x : pyobj) (idx : Z) : result pyval :=
  match x with
  | Some v => py_getitem v idx
  | None => Err TypeError
  end.

(** [l[0:stop]]: slicing never raises; a negative [stop] counts from the
    end. *)
Definition slice_to {A : Type} (l : list A) (stop : Z) : list A :=
  let n := Z.of_nat (length l) in
  let hi := if decide (stop < 0) then Z.max 0 (stop + n) else stop in
  take (Z.to_nat hi) l.

(** [itertools.islice(it, stop)] drained into a list: a negative [stop]
    is rejected when the slice object is built. *)
Definition islice_list {A : Type} (l : list A) (stop : Z) : result (list A) :=
  if decide (stop < 0) then Err ValueError else Ok (take (Z.to_nat stop) l).

(** ** The preprocessing primitive *)

(** A transform and a tokenizer are caller-supplied pure functions. *)
Abbreviation transform := (pyval → pyval).

(** The [for function in preprocess_pipeline] loop of [_preprocess]. *)
Definition run_pipeline (preprocess_pipeline : option (list transform))
    (sentences : pyval) : pyval :=
  match preprocess_pipeline with
  | None => sentences
  | Some fs => foldl (λ s function, function s) sentences fs
  end.

Definition _preprocess (sentences : pyval)
    (preprocess_pipeline : option (list transform))
    (word_tokenize : option transform) : pyval :=
  let sentences := run_pipeline preprocess_pipeline sentences in
  match word_tokenize with
  | None => sentences
  | Some wt => PTuple sentences (PList (wt <$> py_iter sentences))
  end.

(** ** [multiprocessing.Pool]

    The pool is the standard library's, not this repository's.  It is
    modelled by the protocol of CPython's [Pool.map]: the items are cut
    into chunks of [chunksize], one task per chunk; a worker maps the
    function over its chunk; when task [i] reports back, its results are
    stored in the slice [i*chunksize : (i+1)*chunksize] of a result list
    that starts as [None] everywhere.  The order in which tasks report
    back is not determined by the program: it is the parameter [sched], a
    list of task numbers.  [map] returns when every task has reported, so
    the returning calls are those whose [sched] is a permutation of the
    task numbers ([complete_schedule]). *)

(** What the program does with the pool, in program order. *)
Inductive pool_event : Type :=
  | EvPool (processes : Z)
  | EvMap (chunksize : Z) (n_items : nat)
  | EvClose
  | EvJoin.

(** Computations that use the pool: the calls made so far and a result. *)
Definition traced (A : Type) : Type := (list pool_event * result A)%type.

#[global] Instance traced_ret : MRet traced := λ A a, ([], Ok a).
#[global] Instance traced_bind : MBind traced := λ A B f m,
  match m.2 with
  | Ok a => (m.1 ++ (f a).1, (f a).2)
  | Err e => (m.1, Err e)
  end.

Definition emit (e : pool_event) : traced unit := ([e], Ok ()).
Definition raise {A : Type} (e : exn) : traced A := ([], Err e).
Definition lift {A : Type} (r : result A) : traced A := ([], r).

(** [Pool(processes)]: fewer than one process is a [ValueError]. *)
Definition Pool (processes : Z) : traced Z :=
  _ ← emit (EvPool processes);
  if decide (processes < 1) then raise ValueError else mret processes.

(** [Pool._get_tasks]: [tuple(islice(it, size))] until it comes back
    empty.  Every chunk but an empty one consumes an item, so the length
    of the input bounds the number of rounds. *)
Fixpoint get_tasks_aux {A : Type} (rounds size : nat) (it : list A)
    : list (list A) :=
  match rounds with
  | O => []
  | S rounds' =>
      match take size it with
      | [] => []
      | x => x :: get_tasks_aux rounds' size (drop size it)
      end
  end.

Definition _get_tasks {A : Type} (size : nat) (it : list A) : list (list A) :=
  get_tasks_aux (length it) size it.

(** [v[lo:hi] = r] *)
Definition slice_assign {A : Type} (v : list A) (lo hi : nat) (r : list A)
    : list A :=
  take lo v ++ r ++ drop (lo `max` hi) v.

(** [MapResult._set(i, (True, result))] for the task numbered [i]. *)
Definition map_result_set (func : transform) (tasks : list (list pyval))
    (chunksize : nat) (value : list pyobj) (i : nat) : list pyobj :=
  match tasks !! i with
  | Some chunk =>
      slice_assign value (i * chunksize) ((i + 1) * chunksize)
        (Some <$> (func <$> chunk))
  | None => value
  end.

(** [pool.map(func, iterable, chunksize)] *)
Definition Pool_map (sched : list nat) (func : transform)
    (iterable : list pyval) (chunksize : Z) : traced (list pyobj) :=
  _ ← emit (EvMap chunksize (length iterable));
  let chunksize := if decide (length iterable = 0%nat) then 0 else chunksize in
  let value := replicate (length iterable) None in
  if decide (chunksize ≤ 0) then mret value
  else
    let size := Z.to_nat chunksize in
    mret (foldl (map_result_set func (_get_tasks size iterable) size)
            value sched).

Definition complete_schedule (sched : list nat) (chunksize : nat)
    (iterable : list pyval) : Prop :=
  sched ≡ₚ seq 0 (length (_get_tasks chunksize iterable)).

(** ** [parallel_preprocess] *)

(** [int(a / b)]: true division, then truncation toward zero. *)
Definition int_truediv (a b : Z) : result Z :=
  if decide (b = 0) then Err ZeroDivisionError else Ok (Z.quot a b).

Section Coordinator.
(** [multiprocessing.cpu_count()] of the machine: at least one. *)
Variable cpu_count : positive.

Definition parallel_preprocess (sched : list nat) (input_data : list pyval)
    (preprocess_pipeline : option (list transform))
    (word_tokenize : option transform) (num_pool : Z)
    : traced (list pyobj) :=
  let num_pool := if decide (num_pool = -1) then Z.pos cpu_count else num_pool in
  let num_pool := Z.min num_pool (Z.of_nat (length input_data)) in
  p ← Pool num_pool;
  q ← lift (int_truediv (Z.of_nat (length input_data)) num_pool);
  results ← Pool_map sched
    (λ sentences, _preprocess sentences preprocess_pipeline word_tokenize)
    input_data (Z.min 1 q);
  _ ← emit EvClose;
  _ ← emit EvJoin;
  mret results.
End Coordinator.

(** ** Line readers and generators

    A file system maps a path to the lines that iterating the open file
    yields.  A Python generator is a state machine: [next] on it yields a
    value ([Ok (Some x)]), stops ([Ok None], the [StopIteration] case) or
    raises, and leaves the generator in a new state.  A generator that has
    stopped or raised stays stopped. *)

Abbreviation filesystem := (gmap string (list string)).

Definition step (S : Type) : Type := (result pyobj * S)%type.

(** [_line_iter(file_path)]: the file is opened at the first [next]. *)
Inductive line_iter : Type :=
  | LineNew (file_path : string)
  | LineOpen (rest : list string)
  | LineDone.

Definition read_line (rest : list string) : step line_iter :=
  match rest with
  | [] => (Ok None, LineDone)
  | line :: rest' => (Ok (Some (PStr line)), LineOpen rest')
  end.

Definition line_iter_next (fs : filesystem) (g : line_iter) : step line_iter :=
  match g with
  | LineNew file_path =>
      match fs !! file_path with
      | Some lines => read_line lines
      | None => (Err FileNotFoundError, LineDone)
      end
  | LineOpen rest => read_line rest
  | LineDone => (Ok None, LineDone)
  end.

(** Either the bare line reader or [itertools.islice(reader, stop)]; the
    slice holds the reader until it is used up and counts what is left. *)
Inductive source_iter : Type :=
  | Lines (g : line_iter)
  | Islice (g : option line_iter) (remaining : nat).

Definition islice (g : line_iter) (stop : Z) : result source_iter :=
  if decide (stop < 0) then Err ValueError
  else Ok (Islice (Some g) (Z.to_nat stop)).

Definition source_iter_next (fs : filesystem) (it : source_iter)
    : step source_iter :=
  match it with
  | Lines g => let '(r, g') := line_iter_next fs g in (r, Lines g')
  | Islice None n => (Ok None, Islice None n)
  | Islice (Some g) O => (Ok None, Islice None O)
  | Islice (Some g) (S n) =>
      let '(r, g') := line_iter_next fs g in
      match r with
      | Ok (Some line) => (Ok (Some line), Islice (Some g') n)
      | _ => (r, Islice None (S n))
      end
  end.

(** [_create_data_from_iterator(iterator, preprocessing, word_tokenize)];
    [dg_iterator] is [None] once the generator has finished. *)
Record data_gen : Type := DataGen {
  dg_iterator : option source_iter;
  dg_preprocessing : option (list transform);
  dg_word_tokenize : option transform;
}.

Definition _create_data_from_iterator (iterator : source_iter)
    (preprocessing : option (list transform))
    (word_tokenize : option transform) : data_gen :=
  DataGen (Some iterator) preprocessing word_tokenize.

Definition data_gen_finish (g : data_gen) : data_gen :=
  DataGen None (dg_preprocessing g) (dg_word_tokenize g).

Definition data_gen_next (fs : filesystem) (g : data_gen) : step data_gen :=
  match dg_iterator g with
  | None => (Ok None, g)
  | Some it =>
      let '(r, it') := source_iter_next fs it in
      match r with
      | Ok (Some line) =>
          (Ok (Some (_preprocess line (dg_preprocessing g) (dg_word_tokenize g))),
           DataGen (Some it') (dg_preprocessing g) (dg_word_tokenize g))
      | _ => (r, data_gen_finish g)
      end
  end.

(** ** [IterableSummarizationDataset] *)

Module IterableSummarizationDataset.

Record t : Type := Build {
  _source : data_gen;
  _target : option data_gen;
}.

(** A path is truthy when it is a non-empty string. *)
Definition truthy_path (file : option string) : option string :=
  match file with
  | Some EmptyString => None
  | _ => file
  end.

Definition capped (file : string) (top_n : Z) : result source_iter :=
  let source_iter := LineNew file in
  if decide (top_n ≠ -1) then islice source_iter top_n
  else Ok (Lines source_iter).

Definition __init__ (source_file : string) (target_file : option string)
    (source_preprocessing target_preprocessing : option (list transform))
    (word_tokenization : option transform) (top_n : Z) : result t :=
  source_iter ← capped source_file top_n;
  let source :=
    _create_data_from_iterator source_iter source_preprocessing
      word_tokenization in
  match truthy_path target_file with
  | Some target_file =>
      target_iter ← capped target_file top_n;
      Ok (Build source
            (Some (_create_data_from_iterator target_iter target_preprocessing
                     word_tokenization)))
  | None => Ok (Build source None)
  end.

Definition get_source (self : t) : data_gen := _source self.
Definition get_target (self : t) : option data_gen := _target self.

(** One [next] on a generator made by [__iter__]: the generator pulls
    from the instance's own [_source], which every pass shares.
    [finished] is the state of the pass. *)
Definition __iter___next (fs : filesystem) (self : t) (finished : bool)
    : step (t * bool) :=
  if finished then (Ok None, (self, true))
  else
    let '(r, g) := data_gen_next fs (_source self) in
    let self := Build g (_target self) in
    match r with
    | Ok (Some x) => (Ok (Some x), (self, false))
    | _ => (r, (self, true))
    end.

(** Draining a pass, as [list(gen)] does; [None] when [fuel] steps do not
    reach the end. *)
Fixpoint drain (fs : filesystem) (fuel : nat) (self : t) (finished : bool)
    : option (result (list pyval) * t) :=
  match fuel with
  | O => None
  | S fuel' =>
      match __iter___next fs self finished with
      | (Ok (Some x), (self', finished')) =>
          match drain fs fuel' self' finished' with
          | Some (Ok xs, self'') => Some (Ok (x :: xs), self'')
          | other => other
          end
      | (Ok None, (self', _)) => Some (Ok [], self')
      | (Err e, (self', _)) => Some (Err e, self')
      end
  end.

(** [list(self)]: a new pass, drained. *)
Definition iterate (fs : filesystem) (fuel : nat) (self : t)
    : option (result (list pyval) * t) :=
  drain fs fuel self false.

End IterableSummarizationDataset.

(** ** JSON lines

    [jsonlines] writes one JSON object per line.  The file written by
    [save_to_jsonl] is modelled by the sequence of its lines, each line by
    the JSON value it encodes: reading the file back line by line gives
    exactly this sequence.  A Python list and a Python tuple both become a
    JSON array. *)

#[warnings="-register-all"]
Inductive json : Type :=
  | JString (s : string)
  | JArray (l : list json)
  | JObject (fields : list (string * json)).

Fixpoint to_json (v : pyval) : json :=
  match v with
  | PStr s => JString s
  | PList l => JArray (to_json <$> l)
  | PTuple a b => JArray [to_json a; to_json b]
  end.

(** ** [SummarizationDataset] *)

(** An instance attribute that may never have been assigned. *)
Inductive attr (A : Type) : Type :=
  | Unassigned
  | Assigned (a : A).
Arguments Unassigned {A}.
Arguments Assigned {A} a.

Definition getattr {A : Type} (a : attr A) : result A :=
  match a with
  | Assigned x => Ok x
  | Unassigned => Err AttributeError
  end.

(** [list(map(lambda x: x[i], filter(lambda x: len(x[i]) > 0, result)))] *)
Fixpoint select_item (i : Z) (results : list pyobj) : result (list pyval) :=
  match results with
  | [] => Ok []
  | x :: rest =>
      xi ← obj_getitem x i;
      kept ← select_item i rest;
      Ok (if decide (0 < py_len xi)%nat then xi :: kept else kept)
  end.

(** [list(map(lambda x: x, filter(lambda x: len(x) > 0, result)))] *)
Fixpoint select_nonempty (results : list pyobj) : result (list pyval) :=
  match results with
  | [] => Ok []
  | x :: rest =>
      n ← obj_len x;
      kept ← select_nonempty rest;
      match x with
      | Some v => Ok (if decide (0 < n)%nat then v :: kept else kept)
      | None => Err TypeError
      end
  end.

Module SummarizationDataset.

Record t : Type := Build {
  _source_txt : list pyval;
  _target_txt : option (list pyval);
  _source : list pyval;
  _target : attr (list pyval);
}.

(** The lines of a file that is named and exists, cut to [top_n] unless
    [top_n] is [-1]; no lines otherwise. *)
Definition read_file (fs : filesystem) (file : option string) (top_n : Z)
    : result (list pyval) :=
  match file with
  | Some path =>
      match fs !! path with
      | Some lines =>
          if decide (top_n ≠ -1) then islice_list (PStr <$> lines) top_n
          else Ok (PStr <$> lines)
      | None => Ok []
      end
  | None => Ok []
  end.

(** [if extra: txt.extend(extra)] *)
Definition extend_with (txt : list pyval) (extra : option (list pyval))
    : list pyval :=
  match extra with
  | Some (x :: l) => txt ++ x :: l
  | _ => txt
  end.

(** The source and the target lines before any processing. *)
Definition load (fs : filesystem) (file : option string)
    (extra : option (list pyval)) (top_n : Z) : result (list pyval) :=
  txt ← read_file fs file top_n;
  Ok (extend_with txt extra).

(** The two sequences computed from the results of one corpus: the text
    sequence (left as it is without a tokenizer) and the processed one. *)
Definition split_result (word_tokenize : option transform)
    (txt : list pyval) (results : list pyobj)
    : result (list pyval * list pyval) :=
  match word_tokenize with
  | Some _ =>
      txt' ← select_item 0 results;
      processed ← select_item 1 results;
      Ok (txt', processed)
  | None =>
      processed ← select_nonempty results;
      Ok (txt, processed)
  end.

Definition __init__ (cpu_count : positive) (fs : filesystem)
    (sched_source sched_target : list nat)
    (source_file : option string) (source : option (list pyval))
    (target_file : option string) (target : option (list pyval))
    (source_preprocessing target_preprocessing : option (list transform))
    (word_tokenize : option transform) (top_n n_processes : Z) : result t :=
  source_txt ← load fs source_file source top_n;
  target_txt ← load fs target_file target top_n;
  target_txt ←
    (if decide (length target_txt = 0%nat) then Ok None
     else if decide (length source_txt = length target_txt)
          then Ok (Some target_txt)
          else Err AssertionError);
  result ← (parallel_preprocess cpu_count sched_source source_txt
              source_preprocessing word_tokenize n_processes).2;
  '(source_txt, source) ← split_result word_tokenize source_txt result;
  match target_txt with
  | Some target_txt =>
      if decide (0 < length target_txt)%nat then
        result ← (parallel_preprocess cpu_count sched_target target_txt
                    target_preprocessing word_tokenize n_processes).2;
        '(target_txt, target) ← split_result word_tokenize target_txt result;
        Ok (Build source_txt (Some target_txt) source (Assigned target))
      else Ok (Build source_txt (Some target_txt) source Unassigned)
  | None => Ok (Build source_txt None source Unassigned)
  end.

(** Instances live in a store; [shorten] updates its receiver in place
    and returns the reference it was called on. *)
Abbreviation loc := nat.

Definition shorten (self : loc) (top_n : option Z) (σ : gmap loc t)
    : result (loc * gmap loc t) :=
  match σ !! self with
  | None => Err ReferenceError
  | Some this =>
      match top_n with
      | None => Ok (self, σ)
      | Some top_n =>
          if decide (top_n ≤ Z.of_nat (length (_source this))) then
            let source := slice_to (_source this) top_n in
            let source_txt := slice_to (_source_txt this) top_n in
            match _target_txt this with
            | Some target_txt =>
                target ← getattr (_target this);
                Ok (self,
                    <[self := Build source_txt (Some (slice_to target_txt top_n))
                                source (Assigned (slice_to target top_n))]> σ)
            | None =>
                Ok (self, <[self := Build source_txt None source (_target this)]> σ)
            end
          else Ok (self, σ)
      end
  end.

Definition __getitem__ (self : t) (idx : Z) : result (gmap string pyval) :=
  match _target_txt self with
  | None =>
      src ← list_getitem (_source self) idx;
      src_txt ← list_getitem (_source_txt self) idx;
      Ok (<["src" := src]> (<["src_txt" := src_txt]> ∅))
  | Some target_txt =>
      src ← list_getitem (_source self) idx;
      src_txt ← list_getitem (_source_txt self) idx;
      target ← getattr (_target self);
      tgt ← list_getitem target idx;
      tgt_txt ← list_getitem target_txt idx;
      Ok (<["src" := src]> (<["src_txt" := src_txt]>
         (<["tgt" := tgt]> (<["tgt_txt" := tgt_txt]> ∅))))
  end.

Definition __len__ (self : t) : nat := length (_source self).

Definition get_source (self : t) : list pyval := _source self.
Definition get_source_txt (self : t) : list pyval := _source_txt self.
Definition get_target_txt (self : t) : option (list pyval) := _target_txt self.
Definition get_target (self : t) : result (list pyval) := getattr (_target self).

(** The lines that [save_to_jsonl] writes, in order. *)
Definition save_to_jsonl (self : t) : result (list json) :=
  match _target_txt self with
  | None =>
      Ok ((λ src, JObject [("src", to_json src)]) <$> _source self)
  | Some _ =>
      target ← getattr (_target self);
      Ok ((λ p, JObject [("src", to_json p.1); ("tgt", to_json p.2)])
            <$> zip (_source self) target)
  end.

(** The datasets a program can hold: built by the constructor, then
    shortened any number of times. *)
Inductive materialized : t → Prop :=
  | materialized_init cpu_count fs ss st sf s tf tg sp tp wt top_n np d :
      __init__ cpu_count fs ss st sf s tf tg sp tp wt top_n np = Ok d →
      materialized d
  | materialized_shorten d self top_n σ σ' d' :
      materialized d →
      σ !! self = Some d →
      shorten self top_n σ = Ok (self, σ') →
      σ' !! self = Some d' →
      materialized d'.

End SummarizationDataset.

(** ** Consumers of the generators *)

(** [list(gen)] for one of the two generators of a streaming instance, as
    a caller of [get_source()] or [get_target()] does; [None] when [fuel]
    steps do not reach the end. *)
Fixpoint drain_gen (fs : filesystem) (fuel : nat) (g : data_gen)
    : option (result (list pyval) * data_gen) :=
  match fuel with
  | O => None
  | S fuel' =>
      match data_gen_next fs g with
      | (Ok (Some x), g') =>
          match drain_gen fs fuel' g' with
          | Some (Ok xs, g'') => Some (Ok (x :: xs), g'')
          | other => other
          end
      | (Ok None, g') => Some (Ok [], g')
      | (Err e, g') => Some (Err e, g')
      end
  end.

(** The first [k] items of a pass over a streaming instance, as a loop
    that breaks after [k] items takes them: [k] calls of [next], fewer if
    the pass ends or raises first.  The instance is returned as the pass
    leaves it. *)
Fixpoint pull (fs : filesystem) (k : nat) (self : IterableSummarizationDataset.t)
    (finished : bool) : result (list pyval) * IterableSummarizationDataset.t :=
  match k with
  | O => (Ok [], self)
  | S k' =>
      match IterableSummarizationDataset.__iter___next fs self finished with
      | (Ok (Some x), (self', finished')) =>
          match pull fs k' self' finished' with
          | (Ok xs, self'') => (Ok (x :: xs), self'')
          | other => other
          end
      | (Ok None, (self', _)) => (Ok [], self')
      | (Err e, (self', _)) => (Err e, self')
      end
  end.

(** The lines a streaming instance works on: all of them for [top_n = -1],
    the first [top_n] otherwise. *)
Definition capped_lines (top_n : Z) (lines : list string) : list string :=
  if decide (top_n = -1) then lines else take (Z.to_nat top_n) lines.

(** ** Reference definitions for the statements *)

(** The sequential reading of the coordinator: the primitive applied to
    each item in turn. *)
Definition sequential_preprocess (input_data : list pyval)
    (preprocess_pipeline : option (list transform))
    (word_tokenize : option transform) : list pyval :=
  (λ sentences, _preprocess sentences preprocess_pipeline word_tokenize)
    <$> input_data.

(** The worker count after resolving the [-1] sentinel and clamping to the
    number of items. *)
Definition resolved_pool (cpu_count : positive) (num_pool : Z) (n_items : nat)
    : Z :=
  Z.min (if decide (num_pool = -1) then Z.pos cpu_count else num_pool)
    (Z.of_nat n_items).

(** The chunk sizes handed to [Pool.map] in a trace, and the sizes of the
    pools it asked for. *)
Definition map_chunksizes (trace : list pool_event) : list Z :=
  omap (λ e, match e with EvMap chunksize _ => Some chunksize | _ => None end)
    trace.

Definition pool_sizes (trace : list pool_event) : list Z :=
  omap (λ e, match e with EvPool processes => Some processes | _ => None end)
    trace.

(** A value passes the dataset's filter when its length is positive. *)
Definition nonempty (x : pyval) : Prop := (0 < py_len x)%nat.

#[global] Instance nonempty_dec (x : pyval) : Decision (nonempty x) :=
  decide (0 < py_len x)%nat.

(** The lines of a corpus whose processed text is not empty, and what the
    constructor keeps for a corpus: the text sequence and the processed
    sequence.  Both are functions of that corpus's lines alone. *)
Definition kept_lines (pipeline : option (list transform))
    (lines : list pyval) : list pyval :=
  filter (λ line, nonempty (run_pipeline pipeline line)) lines.

Definition tokens_of (pipeline : option (list transform)) (tok : transform)
    (line : pyval) : pyval :=
  PList (tok <$> py_iter (run_pipeline pipeline line)).

Definition corpus_txt (pipeline : option (list transform))
    (word_tokenize : option transform) (lines : list pyval) : list pyval :=
  match word_tokenize with
  | Some _ => run_pipeline pipeline <$> kept_lines pipeline lines
  | None => lines
  end.

Definition corpus_processed (pipeline : option (list transform))
    (word_tokenize : option transform) (lines : list pyval) : list pyval :=
  match word_tokenize with
  | Some tok => tokens_of pipeline tok <$> kept_lines pipeline lines
  | None => run_pipeline pipeline <$> kept_lines pipeline lines
  end.

(** The instance the constructor builds from the source lines [sl] and the
    target lines [tl]. *)
Definition dataset_of (source_preprocessing target_preprocessing : option (list transform))
    (word_tokenize : option transform) (sl tl : list pyval)
    : SummarizationDataset.t :=
  SummarizationDataset.Build
    (corpus_txt source_preprocessing word_tokenize sl)
    (match tl with
     | [] => None
     | _ => Some (corpus_txt target_preprocessing word_tokenize tl)
     end)
    (corpus_processed source_preprocessing word_tokenize sl)
    (match tl with
     | [] => Unassigned
     | _ => Assigned (corpus_processed target_preprocessing word_tokenize tl)
     end).

(** An instance is well formed when its processed target is assigned
    exactly when its target text is not [None], and no processed sequence
    is longer than its text sequence. *)
Definition well_formed (d : SummarizationDataset.t) : Prop :=
  (length (SummarizationDataset._source d)
     ≤ length (SummarizationDataset._source_txt d))%nat ∧
  match SummarizationDataset._target_txt d, SummarizationDataset._target d with
  | None, Unassigned => True
  | Some target_txt, Assigned target => (length target ≤ length target_txt)%nat
  | _, _ => False
  end.

Definition attr_map {A B : Type} (f : A → B) (a : attr A) : attr B :=
  match a with
  | Assigned x => Assigned (f x)
  | Unassigned => Unassigned
  end.

(** ** Sample instances *)

(** Two source lines, no target. *)
Definition two_sources : SummarizationDataset.t :=
  SummarizationDataset.Build [PStr "a"; PStr "b"] None
    [PStr "a"; PStr "b"] Unassigned.

(** Two sources, two targets; the first target processes to nothing. *)
Definition short_target : SummarizationDataset.t :=
  SummarizationDataset.Build [PStr "a"; PStr "b"] (Some [PStr ""; PStr "x"])
    [PStr "a"; PStr "b"] (Assigned [PStr "x"]).

(** ** Invariants used by the proofs *)

(** The result list of a running [Pool.map]: every slot holds the result
    for its item, or is still [None] and belongs to a task outside
    [reported]. *)
Definition slots_inv (func : transform) (iterable : list pyval) (size : nat)
    (reported : nat → Prop) (value : list pyobj) : Prop :=
  length value = length iterable ∧
  ∀ k x, iterable !! k = Some x →
    value !! k = Some (Some (func x)) ∨
    (value !! k = Some None ∧ ¬ reported (k `div` size)%nat).

(** * Proofs *)

(** ** The pool *)

Section PoolFacts.
Context (func : transform) (iterable : list pyval) (size : nat).
Hypothesis size_pos : (0 < size)%nat.

Lemma get_tasks_aux_lookup {A : Type} (rounds : nat) (it : list A) (i : nat) :
  (length it ≤ rounds)%nat →
  get_tasks_aux rounds size it !! i =
    if decide (i * size < length it)%nat
    then Some (take size (drop (i * size) it)) else None.
Proof using size_pos.
  revert it i. induction rounds as [|rounds IH]; intros it i Hlen.
  - destruct it; [|simpl in Hlen; lia].
    rewrite decide_False by (simpl; lia). apply lookup_nil.
  - cbn [get_tasks_aux]. destruct it as [|a it].
    + rewrite take_nil, decide_False by (simpl; lia). apply lookup_nil.
    + destruct size as [|size'] eqn:Hs; [lia|]. rewrite <- Hs in *.
      assert (take size (a :: it) = a :: take size' it) as Ht by (by rewrite Hs).
      rewrite Ht, <- Ht. destruct i as [|i].
      * rewrite decide_True by (simpl; lia). done.
      * cbn [lookup list_lookup]. rewrite IH by (rewrite length_drop; simpl in *; lia).
        rewrite length_drop, drop_drop.
        replace (size + i * size)%nat with (S i * size)%nat by lia.
        repeat case_decide; try done; lia.
Qed.

Lemma get_tasks_lookup (i : nat) :
  _get_tasks size iterable !! i =
    if decide (i * size < length iterable)%nat
    then Some (take size (drop (i * size) iterable)) else None.
Proof using size_pos. by apply get_tasks_aux_lookup. Qed.

Lemma slots_inv_initial (reported : nat → Prop) :
  (∀ j, ¬ reported j) →
  slots_inv func iterable size reported (replicate (length iterable) None).
Proof.
  intros Hnone. split; [by rewrite length_replicate|].
  intros k x Hk. right. split; [|apply Hnone].
  apply lookup_replicate_2. by eapply lookup_lt_Some.
Qed.

Lemma slots_inv_step (reported : nat → Prop) (value : list pyobj) (i : nat) :
  slots_inv func iterable size reported value →
  slots_inv func iterable size (λ j, j = i ∨ reported j)
    (map_result_set func (_get_tasks size iterable) size value i).
Proof using size_pos.
  intros [Hlen Hslots]. unfold map_result_set. rewrite get_tasks_lookup.
  case_decide as Hi.
  - set (lo := (i * size)%nat) in *.
    set (chunk := take size (drop lo iterable)).
    assert (length chunk = size `min` (length iterable - lo))%nat as Hchunk.
    { unfold chunk. by rewrite length_take, length_drop. }
    unfold slice_assign.
    replace (lo `max` ((i + 1) * size))%nat with (lo + size)%nat by lia.
    split.
    { rewrite !length_app, length_take, length_drop, !length_fmap. lia. }
    intros k x Hk. pose proof (lookup_lt_Some _ _ _ Hk) as Hkn.
    destruct (decide (k < lo)%nat) as [Hlt|Hge].
    + rewrite lookup_app_l by (rewrite length_take; lia).
      rewrite lookup_take_lt by done.
      destruct (Hslots k x Hk) as [?|[? Hrep]]; [by left|right].
      split; [done|]. intros [Heq|?]; [|done].
      assert (k `div` size < i)%nat; [|lia].
      apply Nat.Div0.div_lt_upper_bound. lia.
    + rewrite lookup_app_r by (rewrite length_take; lia).
      rewrite length_take.
      replace (k - lo `min` length value)%nat with (k - lo)%nat by lia.
      destruct (decide (k - lo < size)%nat) as [Hin|Hout].
      * left. rewrite lookup_app_l by (rewrite !length_fmap; lia).
        rewrite !list_lookup_fmap. unfold chunk.
        rewrite lookup_take_lt by done. rewrite lookup_drop.
        replace (lo + (k - lo))%nat with k by lia. by rewrite Hk.
      * rewrite lookup_app_r by (rewrite !length_fmap; lia).
        rewrite !length_fmap, lookup_drop.
        replace (lo + size + (k - lo - length chunk))%nat with k by lia.
        destruct (Hslots k x Hk) as [?|[? Hrep]]; [by left|right].
        split; [done|]. intros [Heq|?]; [|done].
        assert (i + 1 ≤ k `div` size)%nat; [|lia].
        apply Nat.div_le_lower_bound; lia.
  - split; [done|]. intros k x Hk.
    pose proof (lookup_lt_Some _ _ _ Hk) as Hkn.
    destruct (Hslots k x Hk) as [?|[? Hrep]]; [by left|right].
    split; [done|]. intros [Heq|?]; [|done].
    assert (k `div` size < i)%nat; [|lia].
    apply Nat.Div0.div_lt_upper_bound. lia.
Qed.

Lemma slots_inv_weaken (P Q : nat → Prop) (value : list pyobj) :
  (∀ j, Q j → P j) →
  slots_inv func iterable size P value → slots_inv func iterable size Q value.
Proof.
  intros HPQ [Hlen Hslots]. split; [done|]. intros k x Hk.
  destruct (Hslots k x Hk) as [?|[? ?]]; [by left|right]. naive_solver.
Qed.

Lemma slots_inv_run (sched : list nat) (reported : nat → Prop)
    (value : list pyobj) :
  slots_inv func iterable size reported value →
  slots_inv func iterable size (λ j, j ∈ sched ∨ reported j)
    (foldl (map_result_set func (_get_tasks size iterable) size) value sched).
Proof using size_pos.
  revert reported value. induction sched as [|i sched IH]; intros reported value Hinv.
  - simpl. eapply slots_inv_weaken; [|done]. intros j [Hj|?]; [|done].
    by apply elem_of_nil in Hj.
  - simpl. eapply slots_inv_weaken; [|apply IH, slots_inv_step, Hinv].
    intros j [Hj|?]; [|by right; right].
    apply elem_of_cons in Hj as [->|?]; [right; by left|by left].
Qed.

(** Whatever the order of completion, a slot is empty or right. *)
Lemma pool_slots_sound (sched : list nat) (ys : list pyval) :
  foldl (map_result_set func (_get_tasks size iterable) size)
    (replicate (length iterable) None) sched = Some <$> ys →
  ys = func <$> iterable.
Proof using size_pos.
  intros Heq.
  destruct (slots_inv_run sched (λ _, False) _
              (slots_inv_initial _ (λ _ H, H))) as [Hlen Hslots].
  rewrite Heq in Hlen, Hslots. rewrite length_fmap in Hlen.
  apply list_eq. intros k. rewrite list_lookup_fmap.
  destruct (iterable !! k) as [x|] eqn:Hk.
  - destruct (Hslots k x Hk) as [Hv|[Hv _]]; rewrite list_lookup_fmap in Hv;
      destruct (ys !! k); simplify_eq/=; done.
  - apply lookup_ge_None in Hk. simpl. apply lookup_ge_None. lia.
Qed.

(** When every task has reported, every slot is filled, in input order. *)
Lemma pool_slots_complete (sched : list nat) :
  complete_schedule sched size iterable →
  foldl (map_result_set func (_get_tasks size iterable) size)
    (replicate (length iterable) None) sched = Some <$> (func <$> iterable).
Proof using size_pos.
  intros Hperm.
  destruct (slots_inv_run sched (λ _, False) _
              (slots_inv_initial _ (λ _ H, H))) as [Hlen Hslots].
  apply list_eq. intros k. rewrite !list_lookup_fmap.
  destruct (iterable !! k) as [x|] eqn:Hk.
  - destruct (Hslots k x Hk) as [Hv|[_ Hrep]]; [done|]. exfalso. apply Hrep. left.
    pose proof (lookup_lt_Some _ _ _ Hk) as Hkn.
    unfold complete_schedule in Hperm. rewrite Hperm. apply elem_of_seq.
    split; [lia|]. simpl.
    assert (is_Some (_get_tasks size iterable !! (k `div` size)%nat)) as [c Hc].
    { rewrite get_tasks_lookup. rewrite decide_True; [done|].
      pose proof (Nat.Div0.mul_div_le k size). lia. }
    by apply lookup_lt_Some in Hc.
  - apply lookup_ge_None in Hk. simpl. apply lookup_ge_None. lia.
Qed.
End PoolFacts.

(** ** The coordinator *)

Lemma get_tasks_singletons {A : Type} (it : list A) :
  _get_tasks 1 it = (λ x, [x]) <$> it.
Proof.
  unfold _get_tasks. induction it as [|a it IH]; [done|].
  simpl. rewrite take_0, drop_0. by f_equal.
Qed.

Lemma complete_schedule_one (sched : list nat) (iterable : list pyval) :
  complete_schedule sched 1 iterable ↔ sched ≡ₚ seq 0 (length iterable).
Proof.
  unfold complete_schedule. by rewrite get_tasks_singletons, length_fmap.
Qed.

Section CoordinatorFacts.
Context (cpu_count : positive) (sched : list nat) (input_data : list pyval).
Context (preprocess_pipeline : option (list transform)).
Context (word_tokenize : option transform) (num_pool : Z).

Let worker : transform :=
  λ sentences, _preprocess sentences preprocess_pipeline word_tokenize.
Let n : Z := resolved_pool cpu_count num_pool (length input_data).

(** With no usable pool size the call stops at [Pool(...)]. *)
Lemma parallel_preprocess_no_pool :
  n < 1 →
  parallel_preprocess cpu_count sched input_data preprocess_pipeline
    word_tokenize num_pool = ([EvPool n], Err ValueError).
Proof.
  subst n. unfold resolved_pool, parallel_preprocess, Pool. intros Hn.
  unfold mbind, traced_bind, emit, raise. simpl.
  rewrite decide_True by done. done.
Qed.

(** Otherwise the pool maps with chunk size one. *)
Lemma parallel_preprocess_runs :
  1 ≤ n →
  parallel_preprocess cpu_count sched input_data preprocess_pipeline
    word_tokenize num_pool =
  ([EvPool n; EvMap 1 (length input_data); EvClose; EvJoin],
   Ok (foldl (map_result_set worker (_get_tasks 1 input_data) 1)
         (replicate (length input_data) None) sched)).
Proof.
  subst n worker. unfold resolved_pool, parallel_preprocess, Pool. intros Hn.
  set (m := Z.min _ _) in *.
  assert (1 ≤ Z.quot (Z.of_nat (length input_data)) m) as Hq.
  { apply Z.quot_le_lower_bound; lia. }
  unfold mbind, traced_bind, mret, traced_ret, emit, raise, lift, int_truediv,
    Pool_map. simpl.
  rewrite (decide_False (P := m < 1)) by lia. simpl.
  rewrite (decide_False (P := m = 0)) by lia. simpl.
  rewrite (decide_False (P := length input_data = 0%nat)) by lia.
  replace (Z.min 1 (Z.quot (Z.of_nat (length input_data)) m)) with 1 by lia.
  simpl. done.
Qed.
End CoordinatorFacts.

(** With a usable pool and every task reporting, the call returns the
    sequential result, for every order of completion. *)
Lemma parallel_preprocess_complete
    (cpu_count : positive) (sched : list nat) (input_data : list pyval)
    (preprocess_pipeline : option (list transform))
    (word_tokenize : option transform) (num_pool : Z) :
  1 ≤ resolved_pool cpu_count num_pool (length input_data) →
  sched ≡ₚ seq 0 (length input_data) →
  (parallel_preprocess cpu_count sched input_data preprocess_pipeline
     word_tokenize num_pool).2 =
  Ok (Some <$> sequential_preprocess input_data preprocess_pipeline word_tokenize).
Proof.
  intros Hn Hsched. rewrite parallel_preprocess_runs by done. simpl.
  rewrite pool_slots_complete; [done|lia|]. by apply complete_schedule_one.
Qed.

(** A call that returns a list without [None] returned the sequential
    result. *)
Lemma parallel_preprocess_filled
    (cpu_count : positive) (sched : list nat) (input_data : list pyval)
    (preprocess_pipeline : option (list transform))
    (word_tokenize : option transform) (num_pool : Z) (ys : list pyval) :
  (parallel_preprocess cpu_count sched input_data preprocess_pipeline
     word_tokenize num_pool).2 = Ok (Some <$> ys) →
  1 ≤ resolved_pool cpu_count num_pool (length input_data) ∧
  ys = sequential_preprocess input_data preprocess_pipeline word_tokenize.
Proof.
  intros Hrun.
  destruct (decide (resolved_pool cpu_count num_pool (length input_data) < 1))
    as [Hn|Hn].
  - by rewrite parallel_preprocess_no_pool in Hrun.
  - split; [lia|]. rewrite parallel_preprocess_runs in Hrun by lia.
    simpl in Hrun. injection Hrun as Hrun.
    eapply pool_slots_sound; [|exact Hrun]. lia.
Qed.

Lemma resolved_pool_usable (cpu_count : positive) (num_pool : Z) (n : nat) :
  1 ≤ resolved_pool cpu_count num_pool n ↔
  (0 < n)%nat ∧ (num_pool = -1 ∨ 1 ≤ num_pool).
Proof. unfold resolved_pool. case_decide; lia. Qed.

(** C1.  For a non-empty input and [num_pool = -1], whatever the order in
    which the workers finish, [parallel_preprocess] returns a list as long
    as the input whose element [i] is [_preprocess] of input element [i]:
    it equals the sequential application of the primitive, in input
    order. *)
Theorem parallel_preprocess_is_sequential
    (cpu_count : positive) (sched : list nat) (input_data : list pyval)
    (preprocess_pipeline : option (list transform))
    (word_tokenize : option transform) :
  input_data ≠ [] →
  sched ≡ₚ seq 0 (length input_data) →
  ∃ results,
    (parallel_preprocess cpu_count sched input_data preprocess_pipeline
       word_tokenize (-1)).2 = Ok results ∧
    length results = length input_data ∧
    (∀ i x, input_data !! i = Some x →
       results !! i =
         Some (Some (_preprocess x preprocess_pipeline word_tokenize))) ∧
    results =
      Some <$> sequential_preprocess input_data preprocess_pipeline word_tokenize.
Proof.
  intros Hne Hsched. eexists. split.
  - apply parallel_preprocess_complete; [|done].
    apply resolved_pool_usable. destruct input_data; [done|]. simpl. lia.
  - unfold sequential_preprocess. rewrite !length_fmap. split; [done|].
    split; [|done]. intros i x Hi. rewrite !list_lookup_fmap, Hi. done.
Qed.

Lemma parallel_preprocess_is_sequential_witness :
  ∃ results,
    (parallel_preprocess 4 [1; 0]%nat [PStr "a b"; PStr "c"] None None (-1)).2
      = Ok results ∧
    length results = 2%nat.
Proof.
  destruct (parallel_preprocess_is_sequential 4 [1; 0]%nat
              [PStr "a b"; PStr "c"] None None) as (results & H1 & H2 & _).
  - discriminate.
  - apply Permutation_swap.
  - exists results. split; [exact H1 | exact H2].
Defined.

(** C2.  On the empty input list the clamp gives a pool size of zero, and
    the call fails in [Pool(0)] with a [ValueError]: a pool of size zero is
    requested and no list is returned.  This holds for every value of
    [num_pool]. *)
Theorem parallel_preprocess_empty_raises
    (cpu_count : positive) (sched : list nat)
    (preprocess_pipeline : option (list transform))
    (word_tokenize : option transform) (num_pool : Z) :
  (parallel_preprocess cpu_count sched [] preprocess_pipeline word_tokenize
     num_pool).2 = Err ValueError ∧
  (num_pool = -1 →
   pool_sizes (parallel_preprocess cpu_count sched [] preprocess_pipeline
                 word_tokenize num_pool).1 = [0]).
Proof.
  assert (resolved_pool cpu_count num_pool 0 < 1) as Hn.
  { unfold resolved_pool. simpl. lia. }
  rewrite (parallel_preprocess_no_pool _ _ [] _ _ _ Hn). split; [done|].
  intros ->. unfold resolved_pool. simpl.
  by replace (Z.min (Z.pos cpu_count) 0) with 0 by lia.
Qed.

Lemma parallel_preprocess_empty_raises_witness :
  (parallel_preprocess 4 [] [] None None (-1)).2 = Err ValueError ∧
  pool_sizes (parallel_preprocess 4 [] [] None None (-1)).1 = [0].
Proof.
  destruct (parallel_preprocess_empty_raises 4 [] None None (-1)) as [H1 H2].
  split; [exact H1 | exact (H2 eq_refl)].
Defined.

(** C8.  For a non-empty input, every chunk size that [parallel_preprocess]
    hands to [Pool.map] is at least 1; when a pool can be made at all
    (the resolved worker count is at least 1) there is exactly one such
    call and its chunk size is 1. *)
Theorem parallel_preprocess_chunksize
    (cpu_count : positive) (sched : list nat) (input_data : list pyval)
    (preprocess_pipeline : option (list transform))
    (word_tokenize : option transform) (num_pool : Z) :
  input_data ≠ [] →
  let trace :=
    (parallel_preprocess cpu_count sched input_data preprocess_pipeline
       word_tokenize num_pool).1 in
  Forall (λ chunksize, 1 ≤ chunksize) (map_chunksizes trace) ∧
  (1 ≤ resolved_pool cpu_count num_pool (length input_data) →
   map_chunksizes trace = [1]) ∧
  (num_pool = -1 → map_chunksizes trace = [1]).
Proof.
  intros Hne trace.
  assert (1 ≤ resolved_pool cpu_count num_pool (length input_data) →
          map_chunksizes trace = [1]) as Hrun.
  { intros Hn. subst trace. by rewrite parallel_preprocess_runs. }
  split; [|split; [done|]].
  - destruct (decide (resolved_pool cpu_count num_pool (length input_data) < 1))
      as [Hn|Hn].
    + subst trace. rewrite parallel_preprocess_no_pool by done. constructor.
    + rewrite Hrun by lia. by repeat constructor.
  - intros ->. apply Hrun. unfold resolved_pool.
    destruct input_data; [done|]. simpl length. simpl. lia.
Qed.

Lemma parallel_preprocess_chunksize_witness :
  map_chunksizes
    (parallel_preprocess 8 [0; 1; 2]%nat [PStr "a"; PStr "b"; PStr "c"]
       None None (-1)).1 = [1].
Proof.
  destruct (parallel_preprocess_chunksize 8 [0; 1; 2]%nat
              [PStr "a"; PStr "b"; PStr "c"] None None (-1)) as (_ & _ & H).
  - discriminate.
  - exact (H eq_refl).
Defined.

(** ** The streaming dataset *)

Module Streaming.
Import IterableSummarizationDataset.

Section Passes.
Context (fs : filesystem).
Context (preprocessing : option (list transform)).
Context (word_tokenize : option transform).
Context (target : option data_gen).

Let item (line : string) : pyval :=
  _preprocess (PStr line) preprocessing word_tokenize.
Let at_iter (it : source_iter) : t :=
  Build (DataGen (Some it) preprocessing word_tokenize) target.
Let exhausted : t := Build (DataGen None preprocessing word_tokenize) target.

Lemma drain_exhausted (fuel : nat) :
  (0 < fuel)%nat → drain fs fuel exhausted false = Some (Ok [], exhausted).
Proof. destruct fuel; [lia|done]. Qed.

Lemma drain_lines_open (rest : list string) (fuel : nat) :
  (length rest < fuel)%nat →
  drain fs fuel (at_iter (Lines (LineOpen rest))) false =
    Some (Ok (item <$> rest), exhausted).
Proof.
  revert fuel. induction rest as [|line rest IH]; intros fuel Hfuel;
    (destruct fuel as [|fuel]; [simpl in Hfuel; lia|]).
  - done.
  - cbn -[drain]. cbn [drain]. cbn -[drain].
    change (drain fs fuel _ false) with
      (drain fs fuel (at_iter (Lines (LineOpen rest))) false).
    rewrite IH by (simpl in Hfuel; lia). done.
Qed.

Lemma drain_islice_open (k : nat) (rest : list string) (fuel : nat) :
  (length rest < fuel)%nat →
  drain fs fuel (at_iter (Islice (Some (LineOpen rest)) k)) false =
    Some (Ok (item <$> take k rest), exhausted).
Proof.
  revert k fuel. induction rest as [|line rest IH]; intros k fuel Hfuel;
    (destruct fuel as [|fuel]; [simpl in Hfuel; lia|]).
  - by destruct k.
  - destruct k as [|k]; [done|].
    cbn -[drain]. cbn [drain]. cbn -[drain].
    change (drain fs fuel _ false) with
      (drain fs fuel (at_iter (Islice (Some (LineOpen rest)) k)) false).
    rewrite IH by (simpl in Hfuel; lia). done.
Qed.

(** Opening the file at the first [next] changes nothing else. *)
Lemma drain_lines_new (file : string) (lines : list string) (fuel : nat) :
  fs !! file = Some lines →
  drain fs fuel (at_iter (Lines (LineNew file))) false =
    drain fs fuel (at_iter (Lines (LineOpen lines))) false.
Proof.
  intros Hfile. destruct fuel; [done|].
  cbn [drain]. unfold __iter___next, data_gen_next. subst at_iter.
  cbn [_source dg_iterator source_iter_next line_iter_next].
  rewrite Hfile. done.
Qed.

Lemma drain_islice_new (file : string) (lines : list string) (k fuel : nat) :
  fs !! file = Some lines →
  drain fs fuel (at_iter (Islice (Some (LineNew file)) k)) false =
    drain fs fuel (at_iter (Islice (Some (LineOpen lines)) k)) false.
Proof.
  intros Hfile. destruct fuel; [done|]. destruct k; [done|].
  cbn [drain]. unfold __iter___next, data_gen_next. subst at_iter.
  cbn [_source dg_iterator source_iter_next line_iter_next].
  rewrite Hfile. done.
Qed.
End Passes.

(** C7.  Iterating a streaming dataset over an existing source file yields
    [_preprocess] of each line in file order, of the first [top_n] lines
    only when [top_n] is not [-1]; the pass ends, and every later pass
    over the same instance yields nothing. *)
Theorem iteration_single_pass
    (fs : filesystem) (source_file : string) (lines : list string)
    (target_file : option string)
    (source_preprocessing target_preprocessing : option (list transform))
    (word_tokenization : option transform) (top_n : Z) (ds : t) :
  fs !! source_file = Some lines →
  __init__ source_file target_file source_preprocessing target_preprocessing
    word_tokenization top_n = Ok ds →
  ∃ ds',
    (∀ fuel, (length lines < fuel)%nat →
       iterate fs fuel ds =
         Some (Ok ((λ line, _preprocess (PStr line) source_preprocessing
                               word_tokenization)
                     <$> (if decide (top_n = -1) then lines
                          else take (Z.to_nat top_n) lines)),
               ds')) ∧
    (∀ fuel, (0 < fuel)%nat → iterate fs fuel ds' = Some (Ok [], ds')).
Proof.
  intros Hfile Hinit. unfold __init__, capped in Hinit.
  exists (Build (DataGen None source_preprocessing word_tokenization) (_target ds)).
  split; [|intros fuel Hfuel; by apply drain_exhausted].
  intros fuel Hfuel. unfold iterate.
  destruct (decide (top_n = -1)) as [->|Hn].
  - rewrite decide_False in Hinit by lia. simpl in Hinit.
    assert (ds = Build (DataGen (Some (Lines (LineNew source_file)))
                          source_preprocessing word_tokenization) (_target ds))
      as ->.
    { destruct (truthy_path target_file); simpl in Hinit; by simplify_eq. }
    simpl _target.
    rewrite (drain_lines_new _ _ _ _ _ lines) by done.
    by apply drain_lines_open.
  - rewrite decide_True in Hinit by done. unfold islice in Hinit.
    destruct (decide (top_n < 0)); [discriminate Hinit|]. simpl in Hinit.
    assert (ds = Build (DataGen (Some (Islice (Some (LineNew source_file))
                                         (Z.to_nat top_n)))
                          source_preprocessing word_tokenization) (_target ds))
      as ->.
    { destruct (truthy_path target_file);
        [rewrite decide_True in Hinit by done|]; simpl in Hinit;
        by simplify_eq. }
    simpl _target.
    rewrite (drain_islice_new _ _ _ _ _ lines) by done.
    by apply drain_islice_open.
Qed.

Lemma iteration_single_pass_witness :
  ∃ ds ds',
    __init__ "src.txt" None None None None 2 = Ok ds ∧
    iterate {["src.txt" := ["one"; "two"; "three"]]} 4 ds =
      Some (Ok [PStr "one"; PStr "two"], ds') ∧
    iterate {["src.txt" := ["one"; "two"; "three"]]} 4 ds' = Some (Ok [], ds').
Proof.
  destruct (__init__ "src.txt" None None None None 2) as [ds|] eqn:Hinit;
    [|discriminate].
  destruct (iteration_single_pass {["src.txt" := ["one"; "two"; "three"]]}
              "src.txt" ["one"; "two"; "three"] None None None None 2 ds)
    as (ds' & Hfirst & Hagain).
  - reflexivity.
  - exact Hinit.
  - exists ds, ds'. split; [reflexivity|]. split.
    + apply (Hfirst 4%nat). simpl. lia.
    + apply (Hagain 4%nat). lia.
Defined.
End Streaming.

(** ** Filtering the results *)

Lemma chars_length (s : string) : length (chars s) = String.length s.
Proof. induction s as [|c s IH]; simpl; [done|by f_equal]. Qed.

Lemma py_iter_length (x : pyval) : length (py_iter x) = py_len x.
Proof. destruct x; simpl; [apply chars_length|done..]. Qed.

Lemma tokens_of_nonempty (pipeline : option (list transform)) (tok : transform)
    (line : pyval) :
  nonempty (tokens_of pipeline tok line) ↔ nonempty (run_pipeline pipeline line).
Proof.
  unfold nonempty, tokens_of. simpl. by rewrite length_fmap, py_iter_length.
Qed.

Lemma filter_fmap_comm {A B : Type} (f : A → B) (P : B → Prop)
    `{!∀ y, Decision (P y)} (l : list A) :
  filter P (f <$> l) = f <$> filter (λ x, P (f x)) l.
Proof.
  induction l as [|a l IH]; [done|]. rewrite fmap_cons, !filter_cons.
  case_decide; rewrite IH; done.
Qed.

Lemma select_nonempty_filled (ys : list pyval) :
  select_nonempty (Some <$> ys) = Ok (filter nonempty ys).
Proof.
  induction ys as [|y ys IH]; [done|]. rewrite fmap_cons. cbn [select_nonempty].
  rewrite IH. simpl. rewrite filter_cons. unfold nonempty at 2, nonempty_dec.
  by case_decide.
Qed.

Lemma select_nonempty_inv (v : list pyobj) (l : list pyval) :
  select_nonempty v = Ok l → ∃ ys, v = Some <$> ys.
Proof.
  revert l. induction v as [|x v IH]; intros l Hsel; [by exists []|].
  cbn [select_nonempty] in Hsel. destruct x as [y|]; [|done]. simpl in Hsel.
  destruct (select_nonempty v) as [kept|] eqn:Hv; [|done].
  destruct (IH kept eq_refl) as [ys ->]. by exists (y :: ys).
Qed.

Lemma select_item_inv (i : Z) (v : list pyobj) (l : list pyval) :
  select_item i v = Ok l → ∃ ys, v = Some <$> ys.
Proof.
  revert l. induction v as [|x v IH]; intros l Hsel; [by exists []|].
  cbn [select_item] in Hsel. destruct x as [y|]; [|done]. simpl in Hsel.
  destruct (py_getitem y i) as [yi|]; [|done]. simpl in Hsel.
  destruct (select_item i v) as [kept|] eqn:Hv; [|done].
  destruct (IH kept eq_refl) as [ys ->]. by exists (y :: ys).
Qed.

Section Tokenized.
Context (pipeline : option (list transform)) (tok : transform).

Lemma select_item_txt (lines : list pyval) :
  select_item 0 (Some <$> sequential_preprocess lines pipeline (Some tok)) =
    Ok (run_pipeline pipeline <$> kept_lines pipeline lines).
Proof.
  unfold sequential_preprocess, kept_lines.
  induction lines as [|line lines IH]; [done|].
  rewrite !fmap_cons. cbn [select_item]. rewrite IH. simpl.
  rewrite filter_cons. unfold nonempty at 2, nonempty_dec.
  by case_decide.
Qed.

Lemma select_item_tokens (lines : list pyval) :
  select_item 1 (Some <$> sequential_preprocess lines pipeline (Some tok)) =
    Ok (tokens_of pipeline tok <$> kept_lines pipeline lines).
Proof.
  unfold sequential_preprocess, kept_lines.
  induction lines as [|line lines IH]; [done|].
  rewrite !fmap_cons. cbn [select_item]. rewrite IH. simpl.
  rewrite filter_cons.
  pose proof (tokens_of_nonempty pipeline tok line) as Hne.
  unfold nonempty, tokens_of in Hne. simpl in Hne.
  unfold nonempty at 2, nonempty_dec.
  repeat case_decide; try done; exfalso; tauto.
Qed.
End Tokenized.

Import SummarizationDataset.

Lemma split_result_filled (pipeline : option (list transform))
    (word_tokenize : option transform) (lines : list pyval) :
  split_result word_tokenize lines
    (Some <$> sequential_preprocess lines pipeline word_tokenize) =
  Ok (corpus_txt pipeline word_tokenize lines,
      corpus_processed pipeline word_tokenize lines).
Proof.
  unfold split_result, corpus_txt, corpus_processed.
  destruct word_tokenize as [tok|].
  - by rewrite select_item_txt, select_item_tokens.
  - rewrite select_nonempty_filled. unfold sequential_preprocess, _preprocess.
    by rewrite filter_fmap_comm.
Qed.

Lemma split_result_inv (word_tokenize : option transform) (txt : list pyval)
    (v : list pyobj) (p : list pyval * list pyval) :
  split_result word_tokenize txt v = Ok p → ∃ ys, v = Some <$> ys.
Proof.
  unfold split_result. destruct word_tokenize.
  - destruct (select_item 0 v) eqn:H0; [|done]. intros _.
    by eapply select_item_inv.
  - destruct (select_nonempty v) eqn:H0; [|done]. intros _.
    by eapply select_nonempty_inv.
Qed.

(** One corpus through the coordinator and the filter, read backwards:
    if both steps succeed, the outcome is the closed form. *)
Lemma corpus_inv (cpu_count : positive) (sched : list nat) (lines : list pyval)
    (pipeline : option (list transform)) (word_tokenize : option transform)
    (n_processes : Z) (v : list pyobj) (p : list pyval * list pyval) :
  (parallel_preprocess cpu_count sched lines pipeline word_tokenize
     n_processes).2 = Ok v →
  split_result word_tokenize lines v = Ok p →
  lines ≠ [] ∧ (n_processes = -1 ∨ 1 ≤ n_processes) ∧
  p = (corpus_txt pipeline word_tokenize lines,
       corpus_processed pipeline word_tokenize lines).
Proof.
  intros Hrun Hsplit. destruct (split_result_inv _ _ _ _ Hsplit) as [ys ->].
  apply parallel_preprocess_filled in Hrun as [Hn ->].
  apply resolved_pool_usable in Hn as [Hlen Hnp].
  rewrite split_result_filled in Hsplit.
  split; [by destruct lines; [simpl in Hlen; lia|]|]. split; [done|congruence].
Qed.

(** ** The constructor *)

Section Constructor.
Context (cpu_count : positive) (fs : filesystem).
Context (sched_source sched_target : list nat).
Context (source_file : option string) (source : option (list pyval)).
Context (target_file : option string) (target : option (list pyval)).
Context (source_preprocessing target_preprocessing : option (list transform)).
Context (word_tokenize : option transform) (top_n n_processes : Z).

Let init : result t :=
  __init__ cpu_count fs sched_source sched_target source_file source
    target_file target source_preprocessing target_preprocessing
    word_tokenize top_n n_processes.

(** A construction that succeeds read both corpora, found the source
    non-empty and the target empty or as long as the source, and built
    the closed form. *)
Lemma init_inv (d : t) :
  init = Ok d →
  ∃ sl tl,
    load fs source_file source top_n = Ok sl ∧
    load fs target_file target top_n = Ok tl ∧
    sl ≠ [] ∧ (tl = [] ∨ length sl = length tl) ∧
    (n_processes = -1 ∨ 1 ≤ n_processes) ∧
    d = dataset_of source_preprocessing target_preprocessing word_tokenize sl tl.
Proof.
  subst init. unfold __init__. intros Hinit.
  destruct (load fs source_file source top_n) as [sl|] eqn:Hsl; [|done].
  destruct (load fs target_file target top_n) as [tl|] eqn:Htl; [|done].
  exists sl, tl. split; [done|]. split; [done|]. simpl in Hinit.
  destruct (decide (length tl = 0%nat)) as [Hz|Hz];
    [|destruct (decide (length sl = length tl)) as [Hlen|Hlen]; [|done]];
    simpl in Hinit;
    (destruct (parallel_preprocess cpu_count sched_source sl
                 source_preprocessing word_tokenize n_processes).2
       as [v|] eqn:Hrun; [|done]);
    simpl in Hinit;
    (destruct (split_result word_tokenize sl v) as [p|] eqn:Hsplit; [|done]);
    destruct (corpus_inv _ _ _ _ _ _ _ _ Hrun Hsplit) as (Hne & Hnp & ->);
    simpl in Hinit; (split; [done|]).
  - apply nil_length_inv in Hz as ->.
    split; [by left|]. split; [done|]. by simplify_eq.
  - rewrite decide_True in Hinit by lia.
    destruct (parallel_preprocess cpu_count sched_target tl target_preprocessing
                word_tokenize n_processes).2 as [w|] eqn:Hrun'; [|done].
    simpl in Hinit.
    destruct (split_result word_tokenize tl w) as [q|] eqn:Hsplit'; [|done].
    destruct (corpus_inv _ _ _ _ _ _ _ _ Hrun' Hsplit') as (_ & _ & ->).
    simpl in Hinit. split; [by right|]. split; [done|].
    destruct tl; [done|]. by simplify_eq.
Qed.

(** Conversely, these conditions and complete schedules make the
    construction succeed. *)
Lemma init_ok (sl tl : list pyval) :
  load fs source_file source top_n = Ok sl →
  load fs target_file target top_n = Ok tl →
  sl ≠ [] → (tl = [] ∨ length sl = length tl) →
  (n_processes = -1 ∨ 1 ≤ n_processes) →
  sched_source ≡ₚ seq 0 (length sl) →
  sched_target ≡ₚ seq 0 (length tl) →
  init = Ok (dataset_of source_preprocessing target_preprocessing
               word_tokenize sl tl).
Proof.
  subst init. unfold __init__. intros -> -> Hne Hlen Hnp Hss Hst. simpl.
  assert (∀ lines : list pyval, lines ≠ [] →
            1 ≤ resolved_pool cpu_count n_processes (length lines)) as Hpool.
  { intros lines Hl. apply resolved_pool_usable. split; [|done].
    destruct lines; [done|simpl; lia]. }
  rewrite (parallel_preprocess_complete _ _ sl) by auto.
  destruct (decide (length tl = 0%nat)) as [Hz|Hz].
  - apply nil_length_inv in Hz as ->. simpl.
    by rewrite split_result_filled.
  - destruct Hlen as [->|Hlen]; [done|].
    rewrite decide_True by done. simpl. rewrite split_result_filled. simpl.
    rewrite decide_True by lia.
    rewrite (parallel_preprocess_complete _ _ tl)
      by (try apply Hpool; by try intros ->).
    simpl. rewrite split_result_filled. simpl. by destruct tl.
Qed.

End Constructor.

(** ** Indexing, slicing and filtering *)

Lemma list_getitem_nat {A : Type} (l : list A) (i : nat) (x : A) :
  list_getitem l (Z.of_nat i) = Ok x ↔ l !! i = Some x.
Proof.
  unfold list_getitem. cbv zeta.
  destruct (decide (Z.of_nat i < 0)); [lia|]. rewrite Nat2Z.id.
  case_decide as Hi.
  - destruct (l !! i); split; intros; by simplify_eq.
  - split; [done|]. intros Hl%lookup_lt_Some. lia.
Qed.

Lemma list_getitem_in_range {A : Type} (l : list A) (idx : Z) :
  - Z.of_nat (length l) ≤ idx < Z.of_nat (length l) →
  ∃ x, list_getitem l idx = Ok x.
Proof.
  intros Hidx. unfold list_getitem. cbv zeta.
  set (i := if decide (idx < 0) then idx + Z.of_nat (length l) else idx).
  assert (0 ≤ i < Z.of_nat (length l)) as Hi by (subst i; case_decide; lia).
  rewrite decide_True by done.
  destruct (lookup_lt_is_Some_2 l (Z.to_nat i)) as [x ->]; [lia|]. by exists x.
Qed.

Lemma list_getitem_not_attribute {A : Type} (l : list A) (idx : Z) :
  list_getitem l idx ≠ Err AttributeError.
Proof.
  unfold list_getitem. cbv zeta. case_decide; [|done]. by destruct (l !! _).
Qed.

Lemma slice_to_nonneg {A : Type} (l : list A) (n : Z) :
  0 ≤ n → slice_to l n = take (Z.to_nat n) l.
Proof. intros Hn. unfold slice_to. cbv zeta. by rewrite decide_False by lia. Qed.

Lemma slice_to_length_mono {A B : Type} (l : list A) (k : list B) (n : Z) :
  (length l ≤ length k)%nat →
  (length (slice_to l n) ≤ length (slice_to k n))%nat.
Proof.
  intros Hlen. unfold slice_to. cbv zeta. rewrite !length_take. case_decide; lia.
Qed.

Section FilterOrigin.
Context {A : Type} (P : A → Prop) `{!∀ x, Decision (P x)}.

(** Entry [i] of a filtered list comes from some position [k] of the
    list, the one with exactly [i] kept entries before it. *)
Lemma filter_lookup_origin (l : list A) (i : nat) (y : A) :
  filter P l !! i = Some y →
  ∃ k, l !! k = Some y ∧ P y ∧ length (filter P (take k l)) = i.
Proof.
  revert i. induction l as [|a l IH]; intros i Hi; [done|].
  rewrite filter_cons in Hi. destruct (decide (P a)) as [Ha|Ha].
  - destruct i as [|i].
    + simplify_eq/=. by exists 0%nat.
    + destruct (IH i Hi) as (k & Hk & Hy & Hlen). exists (S k).
      split; [done|]. split; [done|].
      rewrite firstn_cons, filter_cons_True by done. simpl. by f_equal.
  - destruct (IH i Hi) as (k & Hk & Hy & Hlen). exists (S k).
    split; [done|]. split; [done|].
    by rewrite firstn_cons, filter_cons_False.
Qed.

(** If an earlier entry was dropped, the origin lies further on. *)
Lemma filter_origin_shifted (l : list A) (i j k : nat) (x : A) :
  length (filter P (take k l)) = i →
  (k ≤ length l)%nat →
  (j < i)%nat → l !! j = Some x → ¬ P x → (i < k)%nat.
Proof.
  intros Hlen Hk Hj Hx HP.
  pose proof (length_filter P (take k l)) as Hle.
  rewrite length_take in Hle.
  destruct (decide (i < k)%nat) as [|Hik]; [done|exfalso].
  assert (x ∈ take k l) as Hin.
  { apply list_elem_of_lookup. exists j. rewrite lookup_take_lt by lia. done. }
  pose proof (length_filter_lt P _ _ Hin HP) as Hlt.
  rewrite length_take in Hlt. lia.
Qed.

Lemma length_filter_eq_iff (l : list A) :
  length (filter P l) = length l ↔ Forall P l.
Proof.
  split.
  - intros Hlen. apply Forall_forall. intros x Hx.
    destruct (decide (P x)) as [|Hn]; [done|].
    pose proof (length_filter_lt P _ _ Hx Hn). lia.
  - induction 1 as [|x l Hx Hl IH]; [done|].
    rewrite filter_cons_True by done. simpl. by f_equal.
Qed.
End FilterOrigin.

(** ** Well-formed instances *)

Lemma dataset_of_well_formed (sp tp : option (list transform))
    (wt : option transform) (sl tl : list pyval) :
  well_formed (dataset_of sp tp wt sl tl).
Proof.
  assert (∀ pp lines, length (corpus_processed pp wt lines)
                      ≤ length (corpus_txt pp wt lines))%nat as Hlen.
  { intros pp lines. unfold corpus_processed, corpus_txt, kept_lines.
    destruct wt; rewrite ?length_fmap; [done|apply length_filter]. }
  unfold well_formed, dataset_of. split; [apply Hlen|]. destruct tl; [done|].
  apply Hlen.
Qed.

Lemma shorten_well_formed (self : loc) (top_n : option Z) (σ σ' : gmap loc t)
    (d d' : t) :
  σ !! self = Some d → well_formed d →
  shorten self top_n σ = Ok (self, σ') → σ' !! self = Some d' →
  well_formed d'.
Proof.
  intros Hd [Hlen Htgt] Hshort Hd'. unfold shorten in Hshort. rewrite Hd in Hshort.
  destruct top_n as [n|]; [|by simplify_eq].
  case_decide; [|by simplify_eq].
  destruct d as [stxt ttxt src tgt]. simpl in *.
  destruct ttxt as [ttxt|], tgt as [|tgt]; try done; simpl in Hshort;
    simplify_eq; rewrite lookup_insert_eq in Hd'; simplify_eq;
    (split; simpl; [by apply slice_to_length_mono|]).
  - by apply slice_to_length_mono.
  - done.
Qed.

Lemma materialized_well_formed (d : t) : materialized d → well_formed d.
Proof.
  induction 1 as [? ? ? ? ? ? ? ? ? ? ? ? ? d Hinit|d self top_n σ σ' d' _ IH Hd Hs Hd'].
  - apply init_inv in Hinit as (sl & tl & _ & _ & _ & _ & _ & ->).
    apply dataset_of_well_formed.
  - exact (shorten_well_formed self top_n σ σ' d d' Hd IH Hs Hd').
Qed.

(** ** Reading an instance *)

Lemma getitem_inv (d : t) (idx : Z) (rec : gmap string pyval) :
  __getitem__ d idx = Ok rec →
  ∃ src src_txt,
    list_getitem (_source d) idx = Ok src ∧
    list_getitem (_source_txt d) idx = Ok src_txt ∧
    rec !! "src" = Some src ∧ rec !! "src_txt" = Some src_txt ∧
    match _target_txt d with
    | None => rec !! "tgt" = None
    | Some target_txt =>
        ∃ target tgt,
          _target d = Assigned target ∧ list_getitem target idx = Ok tgt ∧
          rec !! "tgt" = Some tgt
    end.
Proof.
  unfold __getitem__. intros Hget.
  destruct (_target_txt d) as [target_txt|];
    (destruct (list_getitem (_source d) idx) as [src|]; [|done]);
    (destruct (list_getitem (_source_txt d) idx) as [src_txt|]; [|done]);
    simpl in Hget; exists src, src_txt.
  - destruct (_target d) as [|target]; [done|]. simpl in Hget.
    destruct (list_getitem target idx) as [tgt|] eqn:Htgt; [|done].
    simpl in Hget.
    destruct (list_getitem target_txt idx) as [tgt_txt|]; [|done].
    simplify_eq/=. repeat split; try done. by exists target, tgt.
  - by simplify_eq/=.
Qed.

Lemma getitem_no_target (d : t) (idx src src_txt : _) :
  _target_txt d = None →
  list_getitem (_source d) idx = Ok src →
  list_getitem (_source_txt d) idx = Ok src_txt →
  __getitem__ d idx = Ok (<["src" := src]> (<["src_txt" := src_txt]> ∅)).
Proof. unfold __getitem__. by intros -> -> ->. Qed.

(** ** The claims about the constructor *)

(** C6.  When the combined target lines are not empty and their number
    differs from the number of combined source lines, the constructor
    fails on its assertion. *)
Theorem constructor_rejects_mismatch
    (cpu_count : positive) (fs : filesystem) (sched_source sched_target : list nat)
    (source_file : option string) (source : option (list pyval))
    (target_file : option string) (target : option (list pyval))
    (source_preprocessing target_preprocessing : option (list transform))
    (word_tokenize : option transform) (top_n n_processes : Z)
    (sl tl : list pyval) :
  load fs source_file source top_n = Ok sl →
  load fs target_file target top_n = Ok tl →
  tl ≠ [] → length sl ≠ length tl →
  __init__ cpu_count fs sched_source sched_target source_file source
    target_file target source_preprocessing target_preprocessing
    word_tokenize top_n n_processes = Err AssertionError.
Proof.
  intros Hsl Htl Hne Hlen. unfold __init__. rewrite Hsl, Htl. simpl.
  rewrite decide_False by (by destruct tl).
  by rewrite decide_False.
Qed.

(** A source file of three lines and a target file of two. *)
Lemma constructor_rejects_mismatch_witness :
  __init__ 4 {["src.txt" := ["a"; "b"; "c"]; "tgt.txt" := ["x"; "y"]]}
    [0; 1; 2]%nat [0; 1]%nat (Some "src.txt") None (Some "tgt.txt") None
    None None None (-1) (-1) = Err AssertionError.
Proof.
  apply (constructor_rejects_mismatch _ _ _ _ _ _ _ _ _ _ _ _ _
           [PStr "a"; PStr "b"; PStr "c"] [PStr "x"; PStr "y"]).
  - reflexivity.
  - reflexivity.
  - discriminate.
  - simpl. lia.
Defined.

(** C3.  In every construction that succeeds, the processed sequences of a
    corpus are the results of that corpus with the empty ones dropped.
    Source and target are filtered separately: the source sequences are a
    function of the source lines only, the target sequences of the target
    lines only, and nothing realigns them. *)
Theorem filtering_is_per_corpus
    (cpu_count : positive) (fs : filesystem) (sched_source sched_target : list nat)
    (source_file : option string) (source : option (list pyval))
    (target_file : option string) (target : option (list pyval))
    (source_preprocessing target_preprocessing : option (list transform))
    (word_tokenize : option transform) (top_n n_processes : Z) (d : t) :
  __init__ cpu_count fs sched_source sched_target source_file source
    target_file target source_preprocessing target_preprocessing
    word_tokenize top_n n_processes = Ok d →
  ∃ sl tl,
    load fs source_file source top_n = Ok sl ∧
    load fs target_file target top_n = Ok tl ∧
    get_source d = corpus_processed source_preprocessing word_tokenize sl ∧
    get_source_txt d = corpus_txt source_preprocessing word_tokenize sl ∧
    Forall nonempty (get_source d) ∧
    (tl = [] → get_target_txt d = None) ∧
    (tl ≠ [] →
       get_target d =
         Ok (corpus_processed target_preprocessing word_tokenize tl) ∧
       get_target_txt d =
         Some (corpus_txt target_preprocessing word_tokenize tl)) ∧
    (word_tokenize = None →
       get_source d =
         filter nonempty (sequential_preprocess sl source_preprocessing None)).
Proof.
  intros Hinit.
  apply init_inv in Hinit as (sl & tl & Hsl & Htl & _ & _ & _ & ->).
  exists sl, tl. split; [done|]. split; [done|]. split; [done|].
  split; [done|]. split; [|split; [by intros ->|split]].
  - unfold get_source, dataset_of, corpus_processed, kept_lines. simpl.
    apply Forall_forall. intros x Hx. destruct word_tokenize as [tok|];
      apply list_elem_of_fmap in Hx as (line & -> & Hline);
      apply list_elem_of_filter in Hline as [Hne _]; [|done].
    by apply tokens_of_nonempty.
  - intros Hne. by destruct tl.
  - intros ->. unfold get_source, dataset_of, corpus_processed, kept_lines,
      sequential_preprocess, _preprocess. simpl. by rewrite filter_fmap_comm.
Qed.

(** Two sources and two targets, one empty result on each side at a
    different position: what is left pairs "b" with "x". *)
Lemma filtering_is_per_corpus_witness :
  ∃ sl tl,
    load ∅ None (Some [PStr ""; PStr "b"]) (-1) = Ok sl ∧
    load ∅ None (Some [PStr "x"; PStr ""]) (-1) = Ok tl ∧
    get_source (Build [PStr ""; PStr "b"] (Some [PStr "x"; PStr ""])
                  [PStr "b"] (Assigned [PStr "x"]))
      = corpus_processed None None sl ∧
    get_source_txt (Build [PStr ""; PStr "b"] (Some [PStr "x"; PStr ""])
                      [PStr "b"] (Assigned [PStr "x"]))
      = corpus_txt None None sl ∧
    Forall nonempty
      (get_source (Build [PStr ""; PStr "b"] (Some [PStr "x"; PStr ""])
                     [PStr "b"] (Assigned [PStr "x"]))) ∧
    (tl = [] →
       get_target_txt (Build [PStr ""; PStr "b"] (Some [PStr "x"; PStr ""])
                         [PStr "b"] (Assigned [PStr "x"])) = None) ∧
    (tl ≠ [] →
       get_target (Build [PStr ""; PStr "b"] (Some [PStr "x"; PStr ""])
                     [PStr "b"] (Assigned [PStr "x"]))
         = Ok (corpus_processed None None tl) ∧
       get_target_txt (Build [PStr ""; PStr "b"] (Some [PStr "x"; PStr ""])
                         [PStr "b"] (Assigned [PStr "x"]))
         = Some (corpus_txt None None tl)) ∧
    (@None transform = None →
       get_source (Build [PStr ""; PStr "b"] (Some [PStr "x"; PStr ""])
                     [PStr "b"] (Assigned [PStr "x"]))
         = filter nonempty (sequential_preprocess sl None None)).
Proof.
  apply (filtering_is_per_corpus 2 ∅ [1; 0]%nat [0; 1]%nat None
           (Some [PStr ""; PStr "b"]) None (Some [PStr "x"; PStr ""])
           None None None (-1) (-1)).
  reflexivity.
Defined.

(** What the constructor keeps for the source does not depend on the
    target corpus, on its pipeline, or on the order in which the workers
    finish. *)
Lemma source_sequences_ignore_target
    (cpu_count cpu_count' : positive) (fs : filesystem)
    (ss st ss' st' : list nat)
    (source_file : option string) (source : option (list pyval))
    (tf tf' : option string) (tg tg' : option (list pyval))
    (sp tp tp' : option (list transform)) (wt : option transform)
    (top_n np np' : Z) (d d' : t) :
  __init__ cpu_count fs ss st source_file source tf tg sp tp wt top_n np = Ok d →
  __init__ cpu_count' fs ss' st' source_file source tf' tg' sp tp' wt top_n np'
    = Ok d' →
  get_source d = get_source d' ∧ get_source_txt d = get_source_txt d'.
Proof.
  intros (sl & tl & Hsl & _ & _ & _ & _ & ->)%init_inv
         (sl' & tl' & Hsl' & _ & _ & _ & _ & ->)%init_inv.
  rewrite Hsl in Hsl'. by injection Hsl' as <-.
Qed.

(** C9.  Without a tokenizer the raw source sequence is the unfiltered
    list of input lines, so the processed sequence is never longer, and is
    as long exactly when no processed result was empty.  Whenever a result
    before index [i] was empty, [get(i)] pairs the raw line [i] with the
    processed value of a later line [k]: the line with exactly [i]
    non-empty results before it. *)
Theorem raw_source_is_unfiltered
    (cpu_count : positive) (fs : filesystem) (sched_source sched_target : list nat)
    (source_file : option string) (source : option (list pyval))
    (target_file : option string) (target : option (list pyval))
    (source_preprocessing target_preprocessing : option (list transform))
    (top_n n_processes : Z) (d : t) :
  __init__ cpu_count fs sched_source sched_target source_file source
    target_file target source_preprocessing target_preprocessing
    None top_n n_processes = Ok d →
  ∃ sl,
    load fs source_file source top_n = Ok sl ∧
    get_source_txt d = sl ∧
    (length (get_source d) ≤ length (get_source_txt d))%nat ∧
    (length (get_source d) = length (get_source_txt d) ↔
       Forall (λ line, nonempty (_preprocess line source_preprocessing None)) sl) ∧
    ∀ (i : nat) (rec : gmap string pyval),
      __getitem__ d (Z.of_nat i) = Ok rec →
      (∃ j x, (j < i)%nat ∧ sl !! j = Some x ∧
              ¬ nonempty (_preprocess x source_preprocessing None)) →
      ∃ k line,
        (i < k)%nat ∧ sl !! k = Some line ∧
        length (filter nonempty
                  (sequential_preprocess (take k sl) source_preprocessing None)) = i ∧
        rec !! "src" = Some (_preprocess line source_preprocessing None) ∧
        rec !! "src_txt" = sl !! i.
Proof.
  intros Hinit.
  apply init_inv in Hinit as (sl & tl & Hsl & Htl & _ & _ & _ & ->).
  exists sl. split; [done|]. split; [done|].
  assert (get_source (dataset_of source_preprocessing target_preprocessing None sl tl)
          = filter nonempty (sequential_preprocess sl source_preprocessing None))
    as Hsrc.
  { unfold get_source, dataset_of, corpus_processed, kept_lines,
      sequential_preprocess, _preprocess. simpl. by rewrite filter_fmap_comm. }
  rewrite Hsrc. unfold get_source_txt. simpl _source_txt. unfold corpus_txt.
  unfold sequential_preprocess.
  split; [|split].
  - etrans; [apply length_filter|]. by rewrite length_fmap.
  - rewrite <- (length_fmap (λ s, _preprocess s source_preprocessing None) sl).
    rewrite length_filter_eq_iff, Forall_fmap. done.
  - intros i rec Hget (j & x & Hj & Hx & Hempty).
    apply getitem_inv in Hget as (src & src_txt & Hs & Hst & Hrs & Hrt & _).
    apply list_getitem_nat in Hs, Hst.
    change (_source _) with
      (get_source (dataset_of source_preprocessing target_preprocessing None sl tl))
      in Hs.
    rewrite Hsrc in Hs. unfold sequential_preprocess in Hs.
    simpl in Hst.
    apply filter_lookup_origin in Hs as (k & Hk & _ & Hcount).
    pose proof (lookup_lt_Some _ _ _ Hk) as Hklen.
    rewrite list_lookup_fmap in Hk.
    destruct (sl !! k) as [line|] eqn:Hline; [|done].
    simpl in Hk. injection Hk as <-.
    exists k, line. split.
    { eapply (filter_origin_shifted nonempty); [exact Hcount|lia|exact Hj| |exact Hempty].
      by rewrite list_lookup_fmap, Hx. }
    split; [done|]. split; [by rewrite fmap_take|].
    split; [done|]. by rewrite Hrt, Hst.
Qed.

(** Three lines whose first result is empty: [get(1)] pairs the raw line
    "b" with the processed value of the line after it. *)
Lemma raw_source_is_unfiltered_witness :
  ∃ sl,
    load ∅ None (Some [PStr ""; PStr "b"; PStr "c"]) (-1) = Ok sl ∧
    get_source_txt (Build [PStr ""; PStr "b"; PStr "c"] None
                      [PStr "b"; PStr "c"] Unassigned) = sl ∧
    (length (get_source (Build [PStr ""; PStr "b"; PStr "c"] None
                           [PStr "b"; PStr "c"] Unassigned))
     ≤ length (get_source_txt (Build [PStr ""; PStr "b"; PStr "c"] None
                                 [PStr "b"; PStr "c"] Unassigned)))%nat ∧
    ∃ k line,
      (1 < k)%nat ∧ sl !! k = Some line ∧
      (<["src" := PStr "c"]> (<["src_txt" := PStr "b"]> ∅) : gmap string pyval)
        !! "src" = Some (_preprocess line None None) ∧
      (<["src" := PStr "c"]> (<["src_txt" := PStr "b"]> ∅) : gmap string pyval)
        !! "src_txt" = sl !! 1%nat.
Proof.
  destruct (raw_source_is_unfiltered 2 ∅ [2; 0; 1]%nat [] None
              (Some [PStr ""; PStr "b"; PStr "c"]) None None None None (-1) (-1)
              (Build [PStr ""; PStr "b"; PStr "c"] None
                 [PStr "b"; PStr "c"] Unassigned) eq_refl)
    as (sl & Hsl & Htxt & Hle & _ & Hget).
  exists sl. split; [exact Hsl|]. split; [exact Htxt|]. split; [exact Hle|].
  destruct (Hget 1%nat (<["src" := PStr "c"]> (<["src_txt" := PStr "b"]> ∅)))
    as (k & line & Hk & Hline & _ & Hrs & Hrt).
  - reflexivity.
  - exists 0%nat, (PStr ""). split; [lia|]. split.
    + injection Hsl as <-. reflexivity.
    + unfold nonempty. simpl. lia.
  - exists k, line. split; [exact Hk|]. split; [exact Hline|].
    split; [exact Hrs | exact Hrt].
Defined.

(** C10.  After a construction with no target line at all, [get_target]
    raises [AttributeError]; [get(i)] succeeds at every index in range and
    never raises [AttributeError]; [save_to_jsonl] writes one record per
    example, as many as [length()]. *)
Theorem no_target_accessors
    (cpu_count : positive) (fs : filesystem) (sched_source sched_target : list nat)
    (source_file : option string) (source : option (list pyval))
    (target_file : option string) (target : option (list pyval))
    (source_preprocessing target_preprocessing : option (list transform))
    (word_tokenize : option transform) (top_n n_processes : Z) (d : t) :
  __init__ cpu_count fs sched_source sched_target source_file source
    target_file target source_preprocessing target_preprocessing
    word_tokenize top_n n_processes = Ok d →
  load fs target_file target top_n = Ok [] →
  get_target d = Err AttributeError ∧
  get_target_txt d = None ∧
  (∀ idx, - Z.of_nat (__len__ d) ≤ idx < Z.of_nat (__len__ d) →
     ∃ rec, __getitem__ d idx = Ok rec) ∧
  (∀ idx, __getitem__ d idx ≠ Err AttributeError) ∧
  ∃ records,
    save_to_jsonl d = Ok records ∧ length records = __len__ d ∧
    records = (λ src, JObject [("src", to_json src)]) <$> get_source d.
Proof.
  intros Hinit Htl. pose proof Hinit as Hd.
  apply init_inv in Hd as (sl & tl & _ & Htl' & _ & _ & _ & ->).
  rewrite Htl in Htl'. injection Htl' as <-.
  pose proof (dataset_of_well_formed source_preprocessing target_preprocessing
                word_tokenize sl []) as [Hlen _].
  set (d := dataset_of _ _ _ _ _) in *.
  split; [done|]. split; [done|]. split; [|split].
  - intros idx Hidx. unfold __len__ in Hidx.
    destruct (list_getitem_in_range (_source d) idx) as [src Hsrc]; [done|].
    destruct (list_getitem_in_range (_source_txt d) idx) as [txt Htxt]; [lia|].
    eexists. by apply getitem_no_target.
  - intros idx. unfold __getitem__. change (_target_txt d) with (@None (list pyval)).
    pose proof (list_getitem_not_attribute (_source d) idx).
    pose proof (list_getitem_not_attribute (_source_txt d) idx).
    destruct (list_getitem (_source d) idx); [|naive_solver].
    destruct (list_getitem (_source_txt d) idx); [done|naive_solver].
  - eexists. split; [reflexivity|]. split; [|done].
    by rewrite length_fmap.
Qed.

Lemma no_target_accessors_witness :
  get_target (Build [PStr "a"; PStr "b"] None [PStr "a"; PStr "b"] Unassigned)
    = Err AttributeError ∧
  ∃ rec,
    __getitem__ (Build [PStr "a"; PStr "b"] None [PStr "a"; PStr "b"] Unassigned)
      (-1) = Ok rec.
Proof.
  destruct (no_target_accessors 2 ∅ [0; 1]%nat [] None
              (Some [PStr "a"; PStr "b"]) None None None None None (-1) (-1)
              (Build [PStr "a"; PStr "b"] None [PStr "a"; PStr "b"] Unassigned)
              eq_refl eq_refl)
    as (Htarget & _ & Hget & _).
  split; [exact Htarget|]. apply Hget. unfold __len__. simpl. lia.
Defined.

(** ** Truncation *)

Lemma two_sources_materialized : materialized two_sources.
Proof.
  apply (materialized_init 2 ∅ [0; 1]%nat [] None (Some [PStr "a"; PStr "b"])
           None None None None None (-1) (-1)).
  reflexivity.
Qed.

(** C4, as the code has it.  On a dataset of length [L], [shorten(n)] with
    [0 <= n <= L] leaves exactly the first [n] entries of every sequence
    the instance owns, so its length is [n], and a second call with the
    same bound changes nothing; with [n > L] or [n] null the store is
    unchanged.  In each case the reference returned is the receiver. *)
Theorem shorten_keeps_prefix (σ : gmap loc t) (self : loc) (d : t) :
  materialized d → σ !! self = Some d →
  (∀ n, 0 ≤ n ≤ Z.of_nat (__len__ d) →
     let d' :=
       Build (take (Z.to_nat n) (_source_txt d))
         (take (Z.to_nat n) <$> _target_txt d)
         (take (Z.to_nat n) (_source d))
         (attr_map (take (Z.to_nat n)) (_target d)) in
     shorten self (Some n) σ = Ok (self, <[self := d']> σ) ∧
     Z.of_nat (__len__ d') = n ∧
     shorten self (Some n) (<[self := d']> σ) = Ok (self, <[self := d']> σ)) ∧
  (∀ n, Z.of_nat (__len__ d) < n → shorten self (Some n) σ = Ok (self, σ)) ∧
  shorten self None σ = Ok (self, σ).
Proof.
  intros [_ Hwf]%materialized_well_formed Hd.
  split; [|split].
  - intros n Hn d'. unfold __len__ in Hn.
    assert (shorten self (Some n) σ = Ok (self, <[self := d']> σ)) as Hfirst.
    { unfold shorten. rewrite Hd, decide_True by lia.
      rewrite !slice_to_nonneg by lia. subst d'.
      destruct (_target_txt d) as [target_txt|], (_target d) as [|target];
        try done; simpl.
      rewrite !slice_to_nonneg by lia. done. }
    assert (length (_source d') = Z.to_nat n) as Hlen.
    { subst d'. simpl. rewrite length_take. lia. }
    split; [done|]. split; [unfold __len__; lia|].
    unfold shorten. rewrite lookup_insert_eq, decide_True by lia.
    rewrite !slice_to_nonneg by lia. subst d'. simpl.
    destruct (_target_txt d) as [target_txt|], (_target d) as [|target];
      try done; simpl; rewrite ?slice_to_nonneg by lia;
      rewrite !take_take, Nat.min_id, insert_insert_eq; done.
  - intros n Hn. unfold __len__ in Hn. unfold shorten.
    by rewrite Hd, decide_False by lia.
  - unfold shorten. by rewrite Hd.
Qed.

Lemma shorten_keeps_prefix_witness :
  ∃ d',
    shorten 7%nat (Some 1) {[7%nat := two_sources]}
      = Ok (7%nat, <[7%nat := d']> {[7%nat := two_sources]}) ∧
    Z.of_nat (__len__ d') = 1 ∧
    shorten 7%nat (Some 3) {[7%nat := two_sources]}
      = Ok (7%nat, {[7%nat := two_sources]}).
Proof.
  destruct (shorten_keeps_prefix {[7%nat := two_sources]} 7%nat two_sources)
    as (Hcut & Hbig & _).
  - exact two_sources_materialized.
  - reflexivity.
  - destruct (Hcut 1) as (H1 & H2 & _).
    + unfold __len__. simpl. lia.
    + eexists. split; [exact H1|]. split; [exact H2|].
      apply Hbig. unfold __len__. simpl. lia.
Defined.

(** C4 as it is stated fails for a negative bound: [shorten(-1)] on a
    dataset of length 2 passes the test [-1 <= 2], drops the last entry
    and leaves length 1, and a second call drops one more. *)
Lemma shorten_negative_bound :
  ¬ (∀ (σ σ' : gmap loc t) (self : loc) (d d' : t) (n : Z),
       materialized d → σ !! self = Some d →
       n ≤ Z.of_nat (__len__ d) →
       shorten self (Some n) σ = Ok (self, σ') → σ' !! self = Some d' →
       Z.of_nat (__len__ d') = n).
Proof.
  intros Hclaim.
  specialize (Hclaim {[0%nat := two_sources]}
                (<[0%nat := Build [PStr "a"] None [PStr "a"] Unassigned]>
                   {[0%nat := two_sources]})
                0%nat two_sources
                (Build [PStr "a"] None [PStr "a"] Unassigned) (-1)
                two_sources_materialized eq_refl).
  unfold __len__ in Hclaim. simpl in Hclaim.
  assert (1 = -1) as Habs; [|lia].
  apply Hclaim; [lia|reflexivity|apply lookup_insert_eq].
Qed.

(** ** Export *)

Lemma short_target_materialized : materialized short_target.
Proof.
  apply (materialized_init 2 ∅ [0; 1]%nat [1; 0]%nat None
           (Some [PStr "a"; PStr "b"]) None (Some [PStr ""; PStr "x"])
           None None None (-1) (-1)).
  reflexivity.
Qed.

Lemma getitem_target (d : t) (idx : Z) (target_txt target : list pyval)
    (src src_txt tgt tgt_txt : pyval) :
  _target_txt d = Some target_txt → _target d = Assigned target →
  list_getitem (_source d) idx = Ok src →
  list_getitem (_source_txt d) idx = Ok src_txt →
  list_getitem target idx = Ok tgt →
  list_getitem target_txt idx = Ok tgt_txt →
  __getitem__ d idx =
    Ok (<["src" := src]> (<["src_txt" := src_txt]>
       (<["tgt" := tgt]> (<["tgt_txt" := tgt_txt]> ∅)))).
Proof.
  intros Htxt Htgt Hsrc Hst Htg Htt. unfold __getitem__.
  rewrite Htxt, Hsrc. simpl. rewrite Hst. simpl. rewrite Htgt. simpl.
  rewrite Htg. simpl. by rewrite Htt.
Qed.

(** C5, as the code has it.  [save_to_jsonl] writes its records in index
    order: [length()] of them when there is no target, and as many as the
    shorter of the processed source and the processed target when there
    is one.  Record [i] has the field [src] of [get(i)] and, exactly when a
    target corpus was supplied, its field [tgt]; these lines are what
    reading the file back yields. *)
Theorem save_to_jsonl_records (d : t) :
  materialized d →
  ∃ records,
    save_to_jsonl d = Ok records ∧
    length records =
      match get_target d with
      | Ok target => (__len__ d `min` length target)%nat
      | Err _ => __len__ d
      end ∧
    ∀ (i : nat) (r : json), records !! i = Some r →
      ∃ rec src,
        __getitem__ d (Z.of_nat i) = Ok rec ∧
        rec !! "src" = Some src ∧
        (is_Some (rec !! "tgt") ↔ is_Some (get_target_txt d)) ∧
        r = JObject (("src", to_json src) ::
                     match rec !! "tgt" with
                     | Some tgt => [("tgt", to_json tgt)]
                     | None => []
                     end).
Proof.
  intros [Hlen Hwf]%materialized_well_formed.
  unfold save_to_jsonl, get_target, get_target_txt, __len__.
  destruct (_target_txt d) as [target_txt|] eqn:Htxt,
           (_target d) as [|target] eqn:Htgt; try done; simpl.
  - eexists. split; [done|]. split; [by rewrite length_fmap, length_zip|].
    intros i r Hr. rewrite list_lookup_fmap in Hr.
    destruct (zip (_source d) target !! i) as [[src tgt]|] eqn:Hz; [|done].
    simpl in Hr. injection Hr as <-.
    apply lookup_zip_Some in Hz as [Hsrc Htg].
    destruct (lookup_lt_is_Some_2 (_source_txt d) i) as [src_txt Hst].
    { apply lookup_lt_Some in Hsrc. lia. }
    destruct (lookup_lt_is_Some_2 target_txt i) as [tgt_txt Htt].
    { apply lookup_lt_Some in Htg. lia. }
    eexists _, src. split.
    { apply (getitem_target d _ target_txt target src src_txt tgt tgt_txt);
        try done; by apply list_getitem_nat. }
    split; [done|]. split; [|done]. split; eauto.
  - eexists. split; [done|]. split; [by rewrite length_fmap|].
    intros i r Hr. rewrite list_lookup_fmap in Hr.
    destruct (_source d !! i) as [src|] eqn:Hsrc; [|done].
    simpl in Hr. injection Hr as <-.
    destruct (lookup_lt_is_Some_2 (_source_txt d) i) as [src_txt Hst].
    { apply lookup_lt_Some in Hsrc. lia. }
    eexists _, src. split.
    { apply (getitem_no_target d _ src src_txt); try done;
        by apply list_getitem_nat. }
    split; [done|]. split; [|done].
    split; intros [? ?]; done.
Qed.

Lemma save_to_jsonl_records_witness :
  ∃ records,
    save_to_jsonl short_target = Ok records ∧ length records = 1%nat.
Proof.
  destruct (save_to_jsonl_records short_target short_target_materialized)
    as (records & Hsave & Hlen & _).
  exists records. split; [exact Hsave | exact Hlen].
Defined.

(** C5 as it is stated fails when the target loses an entry that the
    source keeps: [length()] is 2 and one record is written. *)
Lemma save_to_jsonl_fewer_records :
  ¬ (∀ (d : t) (records : list json),
       materialized d → save_to_jsonl d = Ok records →
       length records = __len__ d).
Proof.
  intros Hclaim.
  specialize (Hclaim short_target
                [JObject [("src", JString "a"); ("tgt", JString "x")]]
                short_target_materialized eq_refl).
  discriminate Hclaim.
Qed.

(** With that same instance [get(1)] fails, although [1 < length()]. *)
Example short_target_getitem :
  __len__ short_target = 2%nat ∧ __getitem__ short_target 1 = Err IndexError.
Proof. split; reflexivity. Qed.

(** * Further properties of the code *)

(** ** The primitive *)

(** X4.  A pipeline is applied left to right: running [fs ++ gs] is running
    [fs] and then [gs] on its result, with the tokenizer, if any, applied
    at the very end; an absent pipeline behaves as the empty one. *)
Theorem preprocess_pipeline_composes (sentences : pyval)
    (fs gs : list transform) (word_tokenize : option transform) :
  _preprocess sentences (Some (fs ++ gs)) word_tokenize =
    _preprocess (_preprocess sentences (Some fs) None) (Some gs) word_tokenize ∧
  _preprocess sentences None word_tokenize =
    _preprocess sentences (Some []) word_tokenize.
Proof.
  split; [|done]. unfold _preprocess, run_pipeline. by rewrite foldl_app.
Qed.



(** ** The coordinator *)

(** X1.  For a non-empty input the result does not depend on the worker
    count, on the number of CPUs or on the order in which the workers
    finish: with [num_pool] equal to [-1] or at least 1, every run in which
    all tasks report returns the sequential result. *)
Theorem parallel_preprocess_any_worker_count
    (cpu_count cpu_count' : positive) (sched sched' : list nat)
    (input_data : list pyval) (preprocess_pipeline : option (list transform))
    (word_tokenize : option transform) (num_pool num_pool' : Z) :
  input_data ≠ [] →
  (num_pool = -1 ∨ 1 ≤ num_pool) → (num_pool' = -1 ∨ 1 ≤ num_pool') →
  sched ≡ₚ seq 0 (length input_data) → sched' ≡ₚ seq 0 (length input_data) →
  (parallel_preprocess cpu_count sched input_data preprocess_pipeline
     word_tokenize num_pool).2 =
    Ok (Some <$> sequential_preprocess input_data preprocess_pipeline
                   word_tokenize) ∧
  (parallel_preprocess cpu_count' sched' input_data preprocess_pipeline
     word_tokenize num_pool').2 =
    (parallel_preprocess cpu_count sched input_data preprocess_pipeline
       word_tokenize num_pool).2.
Proof.
  intros Hne Hnp Hnp' Hs Hs'.
  assert (0 < length input_data)%nat as Hlen by (destruct input_data; [done|simpl; lia]).
  rewrite !parallel_preprocess_complete; try done;
    by apply resolved_pool_usable.
Qed.

Lemma parallel_preprocess_any_worker_count_witness :
  (parallel_preprocess 8 [1; 0; 2]%nat [PStr "a"; PStr "b"; PStr "c"]
     None None 2).2 =
  (parallel_preprocess 1 [0; 1; 2]%nat [PStr "a"; PStr "b"; PStr "c"]
     None None (-1)).2.
Proof.
  apply (parallel_preprocess_any_worker_count 1 8 [0; 1; 2]%nat [1; 0; 2]%nat
           [PStr "a"; PStr "b"; PStr "c"] None None (-1) 2).
  - discriminate.
  - by left.
  - right. lia.
  - reflexivity.
  - apply Permutation_swap.
Defined.

(** X2.  A worker count of zero, or a negative one other than the [-1]
    sentinel, is rejected by [Pool] with a [ValueError] whatever the
    input: no map call is made. *)
Theorem parallel_preprocess_bad_worker_count
    (cpu_count : positive) (sched : list nat) (input_data : list pyval)
    (preprocess_pipeline : option (list transform))
    (word_tokenize : option transform) (num_pool : Z) :
  num_pool ≠ -1 → num_pool < 1 →
  (parallel_preprocess cpu_count sched input_data preprocess_pipeline
     word_tokenize num_pool).2 = Err ValueError ∧
  map_chunksizes
    (parallel_preprocess cpu_count sched input_data preprocess_pipeline
       word_tokenize num_pool).1 = [].
Proof.
  intros Hne Hlt. rewrite parallel_preprocess_no_pool; [done|].
  unfold resolved_pool. rewrite decide_False by done. lia.
Qed.

Lemma parallel_preprocess_bad_worker_count_witness :
  (parallel_preprocess 4 [0; 1]%nat [PStr "a"; PStr "b"] None None 0).2
    = Err ValueError.
Proof.
  apply (parallel_preprocess_bad_worker_count 4 [0; 1]%nat
           [PStr "a"; PStr "b"] None None 0); [discriminate|lia].
Defined.

(** X3.  A call that returns has asked for one pool, of a size between 1
    and the number of items, has mapped over it once with chunk size 1,
    and has closed and joined it, in this order; the list it returns is as
    long as the input. *)
Theorem parallel_preprocess_pool_lifecycle
    (cpu_count : positive) (sched : list nat) (input_data : list pyval)
    (preprocess_pipeline : option (list transform))
    (word_tokenize : option transform) (num_pool : Z) (results : list pyobj) :
  (parallel_preprocess cpu_count sched input_data preprocess_pipeline
     word_tokenize num_pool).2 = Ok results →
  ∃ processes,
    1 ≤ processes ≤ Z.of_nat (length input_data) ∧
    (parallel_preprocess cpu_count sched input_data preprocess_pipeline
       word_tokenize num_pool).1 =
      [EvPool processes; EvMap 1 (length input_data); EvClose; EvJoin] ∧
    length results = length input_data.
Proof.
  intros Hrun.
  destruct (decide (resolved_pool cpu_count num_pool (length input_data) < 1))
    as [Hn|Hn].
  { by rewrite parallel_preprocess_no_pool in Hrun. }
  rewrite parallel_preprocess_runs in Hrun |- * by lia.
  exists (resolved_pool cpu_count num_pool (length input_data)).
  split; [unfold resolved_pool in *; lia|]. split; [done|].
  simpl in Hrun. injection Hrun as <-.
  assert (0 < 1)%nat as Hpos by lia.
  set (worker := λ sentences, _preprocess sentences preprocess_pipeline word_tokenize).
  by destruct (slots_inv_run worker input_data 1%nat Hpos sched (λ _, False) _
                 (slots_inv_initial worker input_data 1%nat _ (λ _ H, H)))
    as [Hlen _].
Qed.

Lemma parallel_preprocess_pool_lifecycle_witness :
  ∃ processes,
    1 ≤ processes ≤ 3 ∧
    (parallel_preprocess 2 [0; 1; 2]%nat [PStr "a"; PStr "b"; PStr "c"]
       None None (-1)).1 =
      [EvPool processes; EvMap 1 3; EvClose; EvJoin].
Proof.
  destruct (parallel_preprocess_pool_lifecycle 2 [0; 1; 2]%nat
              [PStr "a"; PStr "b"; PStr "c"] None None (-1)
              [Some (PStr "a"); Some (PStr "b"); Some (PStr "c")] eq_refl)
    as (processes & Hp & Htrace & _).
  exists processes. split; [exact Hp | exact Htrace].
Defined.

(** ** More on the streaming dataset *)

Module StreamingMore.
Import IterableSummarizationDataset.

Section Generators.
Context (fs : filesystem).
Context (preprocessing : option (list transform)).
Context (word_tokenize : option transform).

Let item (line : string) : pyval :=
  _preprocess (PStr line) preprocessing word_tokenize.
Let fresh (it : source_iter) : data_gen :=
  _create_data_from_iterator it preprocessing word_tokenize.
Let done_gen : data_gen := DataGen None preprocessing word_tokenize.

(** A pass over an instance is the draining of its [_source]; nothing else
    of the instance changes. *)
Lemma drain_as_gen (fuel : nat) (self : t) :
  drain fs fuel self false =
    (λ p, (p.1, Build p.2 (_target self))) <$> drain_gen fs fuel (_source self).
Proof using Type.
  revert self. induction fuel as [|fuel IH]; intros self; [done|].
  cbn [drain drain_gen]. unfold __iter___next.
  destruct (data_gen_next fs (_source self)) as [[[x|]|e] g]; try done.
  rewrite IH. cbn [_source _target].
  by destruct (drain_gen fs fuel g) as [[[xs|e] g']|].
Qed.

(** A full pass over a freshly built generator. *)
Lemma drain_capped (file : string) (lines : list string) (top_n : Z)
    (it : source_iter) (target : option data_gen) (fuel : nat) :
  fs !! file = Some lines → capped file top_n = Ok it →
  (length lines < fuel)%nat →
  drain fs fuel (Build (fresh it) target) false =
    Some (Ok (item <$> capped_lines top_n lines), Build done_gen target).
Proof using Type.
  intros Hfile Hit Hfuel. unfold capped, capped_lines in *.
  destruct (decide (top_n = -1)) as [->|Hn].
  - rewrite decide_False in Hit by lia. injection Hit as <-.
    subst fresh. cbn beta. unfold _create_data_from_iterator.
    rewrite (Streaming.drain_lines_new _ _ _ _ _ lines) by done.
    by apply Streaming.drain_lines_open.
  - rewrite decide_True in Hit by done. unfold islice in Hit.
    destruct (decide (top_n < 0)); [done|]. injection Hit as <-.
    subst fresh. cbn beta. unfold _create_data_from_iterator.
    rewrite (Streaming.drain_islice_new _ _ _ _ _ lines) by done.
    by apply Streaming.drain_islice_open.
Qed.

Lemma drain_gen_capped (file : string) (lines : list string) (top_n : Z)
    (it : source_iter) (fuel : nat) :
  fs !! file = Some lines → capped file top_n = Ok it →
  (length lines < fuel)%nat →
  drain_gen fs fuel (fresh it) =
    Some (Ok (item <$> capped_lines top_n lines), done_gen).
Proof using Type.
  intros Hfile Hit Hfuel.
  pose proof (drain_capped file lines top_n it None fuel Hfile Hit Hfuel) as Hd.
  rewrite drain_as_gen in Hd. cbn [_source _target] in Hd.
  destruct (drain_gen fs fuel (fresh it)) as [[r g]|]; [|done].
  simpl in Hd. by simplify_eq.
Qed.

(** The first [next] of a pass over a file that does not exist. *)
Lemma drain_missing (file : string) (top_n : Z) (it : source_iter)
    (target : option data_gen) (fuel : nat) :
  fs !! file = None → capped file top_n = Ok it → top_n ≠ 0 →
  (0 < fuel)%nat →
  drain fs fuel (Build (fresh it) target) false =
    Some (Err FileNotFoundError, Build done_gen target).
Proof using Type.
  intros Hfile Hit Hn Hfuel. destruct fuel as [|fuel]; [lia|].
  unfold capped in Hit. subst fresh. cbn beta.
  unfold _create_data_from_iterator.
  destruct (decide (top_n ≠ -1)) as [Hm|Hm].
  - unfold islice in Hit. destruct (decide (top_n < 0)); [done|].
    injection Hit as <-.
    destruct (Z.to_nat top_n) as [|c] eqn:Hc; [lia|].
    cbn [drain]. unfold __iter___next, data_gen_next.
    cbn [_source dg_iterator source_iter_next line_iter_next].
    by rewrite Hfile.
  - injection Hit as <-.
    cbn [drain]. unfold __iter___next, data_gen_next.
    cbn [_source dg_iterator source_iter_next line_iter_next].
    by rewrite Hfile.
Qed.

(** With a cap of zero the reader is never asked for a line. *)
Lemma drain_zero (file : string) (target : option data_gen) (fuel : nat) :
  (0 < fuel)%nat →
  drain fs fuel (Build (fresh (Islice (Some (LineNew file)) 0)) target) false =
    Some (Ok [], Build done_gen target).
Proof using Type. intros Hfuel. destruct fuel as [|fuel]; [lia|done]. Qed.

(** Taking [k] items from a pass. *)
Lemma pull_lines_open (rest : list string) (k : nat) (target : option data_gen) :
  (k ≤ length rest)%nat →
  pull fs k (Build (fresh (Lines (LineOpen rest))) target) false =
    (Ok (item <$> take k rest),
     Build (fresh (Lines (LineOpen (drop k rest)))) target).
Proof using Type.
  revert rest. induction k as [|k IH]; intros rest Hk; [done|].
  destruct rest as [|line rest]; [simpl in Hk; lia|].
  cbn -[pull]. cbn [pull]. cbn -[pull].
  change (pull fs k _ false) with
    (pull fs k (Build (fresh (Lines (LineOpen rest))) target) false).
  rewrite IH by (simpl in Hk; lia). done.
Qed.

Lemma pull_islice_open (rest : list string) (k c : nat)
    (target : option data_gen) :
  (k ≤ length rest)%nat → (k ≤ c)%nat →
  pull fs k (Build (fresh (Islice (Some (LineOpen rest)) c)) target) false =
    (Ok (item <$> take k rest),
     Build (fresh (Islice (Some (LineOpen (drop k rest))) (c - k))) target).
Proof using Type.
  revert rest c. induction k as [|k IH]; intros rest c Hk Hc.
  { by rewrite Nat.sub_0_r. }
  destruct rest as [|line rest]; [simpl in Hk; lia|].
  destruct c as [|c]; [lia|].
  cbn -[pull]. cbn [pull]. cbn -[pull].
  change (pull fs k _ false) with
    (pull fs k (Build (fresh (Islice (Some (LineOpen rest)) c)) target) false).
  rewrite IH by (simpl in Hk; lia). done.
Qed.

Lemma pull_lines_new (file : string) (lines : list string) (k : nat)
    (target : option data_gen) :
  fs !! file = Some lines → (0 < k)%nat →
  pull fs k (Build (fresh (Lines (LineNew file))) target) false =
    pull fs k (Build (fresh (Lines (LineOpen lines))) target) false.
Proof using Type.
  intros Hfile Hk. destruct k as [|k]; [lia|].
  cbn [pull]. unfold __iter___next, data_gen_next. subst fresh. cbn beta.
  unfold _create_data_from_iterator.
  cbn [_source dg_iterator source_iter_next line_iter_next].
  by rewrite Hfile.
Qed.

Lemma pull_islice_new (file : string) (lines : list string) (k c : nat)
    (target : option data_gen) :
  fs !! file = Some lines → (0 < k)%nat →
  pull fs k (Build (fresh (Islice (Some (LineNew file)) c)) target) false =
    pull fs k (Build (fresh (Islice (Some (LineOpen lines)) c)) target) false.
Proof using Type.
  intros Hfile Hk. destruct k as [|k]; [lia|]. destruct c as [|c]; [done|].
  cbn [pull]. unfold __iter___next, data_gen_next. subst fresh. cbn beta.
  unfold _create_data_from_iterator.
  cbn [_source dg_iterator source_iter_next line_iter_next].
  by rewrite Hfile.
Qed.
End Generators.

(** What the constructor builds. *)
Lemma init_shape (source_file : string) (target_file : option string)
    (source_preprocessing target_preprocessing : option (list transform))
    (word_tokenization : option transform) (top_n : Z) (ds : t) :
  __init__ source_file target_file source_preprocessing target_preprocessing
    word_tokenization top_n = Ok ds →
  ∃ it,
    capped source_file top_n = Ok it ∧
    _source ds = _create_data_from_iterator it source_preprocessing
                   word_tokenization ∧
    match truthy_path target_file with
    | Some file =>
        ∃ it', capped file top_n = Ok it' ∧
               _target ds = Some (_create_data_from_iterator it'
                                    target_preprocessing word_tokenization)
    | None => _target ds = None
    end.
Proof.
  unfold __init__. intros Hinit.
  destruct (capped source_file top_n) as [it|]; [|done]. simpl in Hinit.
  exists it. split; [done|].
  destruct (truthy_path target_file) as [file|].
  - destruct (capped file top_n) as [it'|]; [|done]. simpl in Hinit.
    simplify_eq. split; [done|]. by exists it'.
  - by simplify_eq.
Qed.


(** X7.  A source file that does not exist is only noticed when the
    instance is iterated: unless [top_n] is 0, the first pass raises
    [FileNotFoundError]; the generator is then finished, and later passes
    yield nothing. *)
Theorem missing_file_fails_at_iteration (fs : filesystem)
    (source_file : string) (target_file : option string)
    (source_preprocessing target_preprocessing : option (list transform))
    (word_tokenization : option transform) (top_n : Z) (ds : t) :
  fs !! source_file = None →
  __init__ source_file target_file source_preprocessing target_preprocessing
    word_tokenization top_n = Ok ds →
  top_n ≠ 0 →
  ∃ ds',
    (∀ fuel, (0 < fuel)%nat →
       iterate fs fuel ds = Some (Err FileNotFoundError, ds')) ∧
    (∀ fuel, (0 < fuel)%nat → iterate fs fuel ds' = Some (Ok [], ds')).
Proof.
  intros Hfile (it & Hit & Hsrc & _)%init_shape Hn.
  exists (Build (DataGen None source_preprocessing word_tokenization) (_target ds)).
  split; intros fuel Hfuel; unfold iterate.
  - destruct ds as [src tgt]. simpl in Hsrc. subst src.
    by apply (drain_missing _ _ _ source_file top_n).
  - by destruct fuel; [lia|].
Qed.

Lemma missing_file_fails_at_iteration_witness :
  ∃ ds ds',
    __init__ "nowhere.txt" None None None None (-1) = Ok ds ∧
    iterate ∅ 1 ds = Some (Err FileNotFoundError, ds') ∧
    iterate ∅ 1 ds' = Some (Ok [], ds').
Proof.
  destruct (__init__ "nowhere.txt" None None None None (-1)) as [ds|] eqn:Hinit;
    [|discriminate].
  destruct (missing_file_fails_at_iteration ∅ "nowhere.txt" None None None None
              (-1) ds) as (ds' & Hfirst & Hagain).
  - reflexivity.
  - exact Hinit.
  - discriminate.
  - exists ds, ds'. split; [reflexivity|]. split.
    + apply (Hfirst 1%nat). lia.
    + apply (Hagain 1%nat). lia.
Defined.

(** X8.  With [top_n = 0] a pass yields nothing and never opens the source
    file: it ends normally on every file system, also on one where the file
    does not exist. *)
Theorem zero_cap_never_opens (fs : filesystem)
    (source_file : string) (target_file : option string)
    (source_preprocessing target_preprocessing : option (list transform))
    (word_tokenization : option transform) (ds : t) :
  __init__ source_file target_file source_preprocessing target_preprocessing
    word_tokenization 0 = Ok ds →
  ∃ ds', ∀ fuel, (0 < fuel)%nat → iterate fs fuel ds = Some (Ok [], ds').
Proof.
  intros (it & Hit & Hsrc & _)%init_shape.
  exists (Build (DataGen None source_preprocessing word_tokenization) (_target ds)).
  intros fuel Hfuel. unfold iterate.
  destruct ds as [src tgt]. simpl in Hsrc. subst src.
  injection Hit as <-. by apply drain_zero.
Qed.

Lemma zero_cap_never_opens_witness :
  ∃ ds ds',
    __init__ "nowhere.txt" None None None None 0 = Ok ds ∧
    iterate ∅ 1 ds = Some (Ok [], ds').
Proof.
  destruct (__init__ "nowhere.txt" None None None None 0) as [ds|] eqn:Hinit;
    [|discriminate].
  destruct (zero_cap_never_opens ∅ "nowhere.txt" None None None None ds Hinit)
    as [ds' Hpass].
  exists ds, ds'. split; [reflexivity|]. apply (Hpass 1%nat). lia.
Defined.

(** X9.  The two generators of an instance are independent.  A pass over
    the instance, complete or failed, leaves the target generator as it
    was, and draining that generator afterwards still yields [_preprocess]
    (with the target pipeline) of every target line, capped by [top_n], in
    file order, once. *)
Theorem target_generator_is_independent (fs : filesystem)
    (source_file target_file : string) (tlines : list string)
    (source_preprocessing target_preprocessing : option (list transform))
    (word_tokenization : option transform) (top_n : Z) (ds : t) :
  target_file ≠ "" → fs !! target_file = Some tlines →
  __init__ source_file (Some target_file) source_preprocessing
    target_preprocessing word_tokenization top_n = Ok ds →
  ∀ fuel r ds', iterate fs fuel ds = Some (r, ds') →
    get_target ds' = get_target ds ∧
    ∃ g g',
      get_target ds' = Some g ∧
      (∀ fuel', (length tlines < fuel')%nat →
         drain_gen fs fuel' g =
           Some (Ok ((λ line, _preprocess (PStr line) target_preprocessing
                                 word_tokenization)
                       <$> capped_lines top_n tlines), g')) ∧
      (∀ fuel', (0 < fuel')%nat → drain_gen fs fuel' g' = Some (Ok [], g')).
Proof.
  intros Hne Hfile (it & _ & _ & Htgt)%init_shape fuel r ds' Hpass.
  assert (truthy_path (Some target_file) = Some target_file) as Htruthy
    by (by destruct target_file).
  rewrite Htruthy in Htgt. destruct Htgt as (it' & Hit' & Htgt).
  unfold iterate in Hpass. rewrite drain_as_gen in Hpass.
  destruct (drain_gen fs fuel (_source ds)) as [[r0 g0]|]; [|done].
  simpl in Hpass. injection Hpass as <- <-. unfold get_target. simpl.
  split; [done|]. eexists _, _. split; [exact Htgt|]. split.
  - intros fuel' Hfuel.
    by apply (drain_gen_capped fs _ _ target_file tlines top_n).
  - intros fuel' Hfuel. by destruct fuel'; [lia|].
Qed.

Lemma target_generator_is_independent_witness :
  ∃ g g',
    get_target
      (Build (DataGen None None None)
         (Some (_create_data_from_iterator (Lines (LineNew "tgt.txt"))
                  None None))) = Some g ∧
    drain_gen {["src.txt" := ["a"; "b"]; "tgt.txt" := ["x"; "y"]]} 3 g
      = Some (Ok [PStr "x"; PStr "y"], g').
Proof.
  destruct (target_generator_is_independent
              {["src.txt" := ["a"; "b"]; "tgt.txt" := ["x"; "y"]]}
              "src.txt" "tgt.txt" ["x"; "y"] None None None (-1)
              (Build (_create_data_from_iterator (Lines (LineNew "src.txt"))
                        None None)
                 (Some (_create_data_from_iterator (Lines (LineNew "tgt.txt"))
                          None None))))
    with (fuel := 3%nat) (r := Ok [PStr "a"; PStr "b"])
         (ds' := Build (DataGen None None None)
                   (Some (_create_data_from_iterator (Lines (LineNew "tgt.txt"))
                            None None)))
    as (_ & g & g' & Hg & Hdrain & _).
  - discriminate.
  - reflexivity.
  - reflexivity.
  - reflexivity.
  - exists g, g'. split; [exact Hg|]. apply (Hdrain 3%nat). simpl. lia.
Defined.

(** X10.  A pass that is abandoned is not lost: after [k] items have been
    taken from one pass, a new pass over the same instance yields the
    remaining items, not the first ones again. *)
Theorem abandoned_pass_resumes (fs : filesystem)
    (source_file : string) (lines : list string) (target_file : option string)
    (source_preprocessing target_preprocessing : option (list transform))
    (word_tokenization : option transform) (top_n : Z) (ds : t) (k : nat) :
  fs !! source_file = Some lines →
  __init__ source_file target_file source_preprocessing target_preprocessing
    word_tokenization top_n = Ok ds →
  (k ≤ length (capped_lines top_n lines))%nat →
  let items :=
    (λ line, _preprocess (PStr line) source_preprocessing word_tokenization)
      <$> capped_lines top_n lines in
  ∃ ds1,
    pull fs k ds false = (Ok (take k items), ds1) ∧
    ∀ fuel, (length lines < fuel)%nat →
      ∃ ds2, iterate fs fuel ds1 = Some (Ok (drop k items), ds2).
Proof.
  intros Hfile (it & Hit & Hsrc & _)%init_shape Hk items.
  destruct ds as [src tgt]. simpl in Hsrc. subst src.
  destruct k as [|k].
  { eexists. split; [by rewrite take_0|]. intros fuel Hfuel. eexists.
    rewrite drop_0. unfold iterate.
    by apply (drain_capped fs _ _ source_file lines top_n). }
  subst items. unfold capped, capped_lines in *.
  destruct (decide (top_n = -1)) as [->|Hn].
  - rewrite decide_False in Hit by lia. injection Hit as <-.
    eexists. split.
    + rewrite (pull_lines_new fs _ _ source_file lines) by (done || lia).
      rewrite pull_lines_open by done. by rewrite fmap_take.
    + intros fuel Hfuel. eexists. unfold iterate.
      unfold _create_data_from_iterator.
      rewrite Streaming.drain_lines_open by (rewrite length_drop; lia).
      by rewrite fmap_drop.
  - rewrite decide_True in Hit by done. unfold islice in Hit.
    destruct (decide (top_n < 0)); [done|]. injection Hit as <-.
    rewrite length_take in Hk.
    eexists. split.
    + rewrite (pull_islice_new fs _ _ source_file lines) by (done || lia).
      rewrite pull_islice_open by lia.
      rewrite <- fmap_take, take_take.
      by replace (S k `min` Z.to_nat top_n)%nat with (S k) by lia.
    + intros fuel Hfuel. eexists. unfold iterate.
      unfold _create_data_from_iterator.
      rewrite Streaming.drain_islice_open by (rewrite length_drop; lia).
      rewrite take_drop_commute, fmap_drop.
      by replace (S k + (Z.to_nat top_n - S k))%nat with (Z.to_nat top_n) by lia.
Qed.

Lemma abandoned_pass_resumes_witness :
  ∃ ds ds1 ds2,
    __init__ "src.txt" None None None None (-1) = Ok ds ∧
    pull {["src.txt" := ["a"; "b"; "c"]]} 1 ds false = (Ok [PStr "a"], ds1) ∧
    iterate {["src.txt" := ["a"; "b"; "c"]]} 4 ds1
      = Some (Ok [PStr "b"; PStr "c"], ds2).
Proof.
  destruct (__init__ "src.txt" None None None None (-1)) as [ds|] eqn:Hinit;
    [|discriminate].
  destruct (abandoned_pass_resumes {["src.txt" := ["a"; "b"; "c"]]} "src.txt"
              ["a"; "b"; "c"] None None None None (-1) ds 1)
    as (ds1 & Hpull & Hrest).
  - reflexivity.
  - exact Hinit.
  - simpl. lia.
  - destruct (Hrest 4%nat) as [ds2 Hpass]; [simpl; lia|].
    exists ds, ds1, ds2. split; [reflexivity|]. split; [exact Hpull | exact Hpass].
Defined.
End StreamingMore.

(** ** More on the materialized dataset *)

Lemma extend_with_app (txt : list pyval) (extra : option (list pyval)) :
  extend_with txt extra = txt ++ default [] extra.
Proof. destruct extra as [[|x l]|]; simpl; by rewrite ?app_nil_r. Qed.

Lemma load_file (fs : filesystem) (path : string) (lines : list string)
    (extra : option (list pyval)) (top_n : Z) :
  fs !! path = Some lines → -1 ≤ top_n →
  load fs (Some path) extra top_n =
    Ok ((PStr <$> capped_lines top_n lines) ++ default [] extra).
Proof.
  intros Hfile Hn. unfold load, read_file, capped_lines, islice_list.
  rewrite Hfile. destruct (decide (top_n = -1)) as [->|Hm]; simpl.
  - by rewrite extend_with_app.
  - rewrite decide_True by done. rewrite decide_False by lia. simpl.
    by rewrite extend_with_app, fmap_take.
Qed.

Lemma load_no_file (fs : filesystem) (file : option string)
    (extra : option (list pyval)) (top_n : Z) :
  (file = None ∨ ∃ path, file = Some path ∧ fs !! path = None) →
  load fs file extra top_n = Ok (default [] extra).
Proof.
  unfold load, read_file. intros [->|(path & -> & ->)]; simpl;
    by rewrite extend_with_app.
Qed.

(** X11.  [top_n] cuts the lines read from the file and nothing else: in a
    dataset built without a tokenizer from an existing source file, the raw
    source sequence is the first [top_n] file lines (all of them for
    [-1]) followed by the whole in-memory list. *)
Theorem top_n_cuts_file_lines_only
    (cpu_count : positive) (fs : filesystem) (sched_source sched_target : list nat)
    (path : string) (lines : list string) (source : option (list pyval))
    (target_file : option string) (target : option (list pyval))
    (source_preprocessing target_preprocessing : option (list transform))
    (top_n n_processes : Z) (d : t) :
  fs !! path = Some lines →
  __init__ cpu_count fs sched_source sched_target (Some path) source
    target_file target source_preprocessing target_preprocessing
    None top_n n_processes = Ok d →
  -1 ≤ top_n ∧
  get_source_txt d = (PStr <$> capped_lines top_n lines) ++ default [] source.
Proof.
  intros Hfile Hinit.
  assert (-1 ≤ top_n) as Hn.
  { destruct (decide (-1 ≤ top_n)) as [|Hneg]; [done|exfalso].
    unfold __init__, load, read_file, islice_list in Hinit.
    rewrite Hfile in Hinit. rewrite decide_True in Hinit by lia.
    by rewrite decide_True in Hinit by lia. }
  split; [done|].
  apply init_inv in Hinit as (sl & tl & Hsl & _ & _ & _ & _ & ->).
  rewrite (load_file _ _ lines) in Hsl by done. by injection Hsl as <-.
Qed.

Lemma top_n_cuts_file_lines_only_witness :
  get_source_txt
    (Build [PStr "l1"; PStr "extra1"; PStr "extra2"] None
       [PStr "l1"; PStr "extra1"; PStr "extra2"] Unassigned)
  = (PStr <$> capped_lines 1 ["l1"; "l2"; "l3"])
      ++ default [] (Some [PStr "extra1"; PStr "extra2"]).
Proof.
  apply (top_n_cuts_file_lines_only 2 {["src.txt" := ["l1"; "l2"; "l3"]]}
           [0; 1; 2]%nat [] "src.txt" ["l1"; "l2"; "l3"]
           (Some [PStr "extra1"; PStr "extra2"]) None None None None 1 (-1)).
  - reflexivity.
  - reflexivity.
Defined.

(** X12.  A file that is not named or does not exist is passed over in
    silence, and [top_n] is then not even looked at: the constructor
    behaves as if it had been given the in-memory lists alone. *)
Theorem missing_files_are_ignored
    (cpu_count : positive) (fs : filesystem) (sched_source sched_target : list nat)
    (source_file : option string) (source : option (list pyval))
    (target_file : option string) (target : option (list pyval))
    (source_preprocessing target_preprocessing : option (list transform))
    (word_tokenize : option transform) (top_n n_processes : Z) :
  (source_file = None ∨ ∃ p, source_file = Some p ∧ fs !! p = None) →
  (target_file = None ∨ ∃ p, target_file = Some p ∧ fs !! p = None) →
  __init__ cpu_count fs sched_source sched_target source_file source
    target_file target source_preprocessing target_preprocessing
    word_tokenize top_n n_processes =
  __init__ cpu_count fs sched_source sched_target None source None target
    source_preprocessing target_preprocessing word_tokenize (-1) n_processes.
Proof.
  intros Hs Ht. unfold __init__.
  rewrite (load_no_file fs source_file) by done.
  rewrite (load_no_file fs target_file) by done.
  rewrite !(load_no_file fs None) by (by left). done.
Qed.

Lemma missing_files_are_ignored_witness :
  __init__ 2 ∅ [0]%nat [] (Some "nowhere.txt") (Some [PStr "a"]) None None
    None None None (-7) (-1) =
  __init__ 2 ∅ [0]%nat [] None (Some [PStr "a"]) None None
    None None None (-1) (-1).
Proof.
  apply (missing_files_are_ignored 2 ∅ [0]%nat [] (Some "nowhere.txt")
           (Some [PStr "a"]) None None None None None (-7) (-1)).
  - right. exists "nowhere.txt". split; reflexivity.
  - by left.
Defined.

(** X13.  With a source file that exists, a negative [top_n] other than
    [-1] makes the constructor fail with a [ValueError]. *)
Theorem negative_top_n_is_rejected
    (cpu_count : positive) (fs : filesystem) (sched_source sched_target : list nat)
    (path : string) (lines : list string) (source : option (list pyval))
    (target_file : option string) (target : option (list pyval))
    (source_preprocessing target_preprocessing : option (list transform))
    (word_tokenize : option transform) (top_n n_processes : Z) :
  fs !! path = Some lines → top_n < -1 →
  __init__ cpu_count fs sched_source sched_target (Some path) source
    target_file target source_preprocessing target_preprocessing
    word_tokenize top_n n_processes = Err ValueError.
Proof.
  intros Hfile Hn. unfold __init__, load, read_file, islice_list.
  rewrite Hfile. rewrite decide_True by lia. by rewrite decide_True by lia.
Qed.

Lemma negative_top_n_is_rejected_witness :
  __init__ 2 {["src.txt" := ["a"]]} [0]%nat [] (Some "src.txt") None None None
    None None None (-2) (-1) = Err ValueError.
Proof.
  apply (negative_top_n_is_rejected 2 {["src.txt" := ["a"]]} [0]%nat []
           "src.txt" ["a"] None None None None None None (-2) (-1)).
  - reflexivity.
  - lia.
Defined.

(** X14.  When both corpora can be read and every worker reports, the
    constructor succeeds exactly when there is at least one source line,
    the target is empty or as long as the source, and [n_processes] is
    [-1] or at least 1; the instance it builds is then the closed form
    [dataset_of]. *)
Theorem construction_succeeds_iff
    (cpu_count : positive) (fs : filesystem) (sched_source sched_target : list nat)
    (source_file : option string) (source : option (list pyval))
    (target_file : option string) (target : option (list pyval))
    (source_preprocessing target_preprocessing : option (list transform))
    (word_tokenize : option transform) (top_n n_processes : Z)
    (sl tl : list pyval) :
  load fs source_file source top_n = Ok sl →
  load fs target_file target top_n = Ok tl →
  sched_source ≡ₚ seq 0 (length sl) →
  sched_target ≡ₚ seq 0 (length tl) →
  (sl ≠ [] ∧ (tl = [] ∨ length sl = length tl) ∧
   (n_processes = -1 ∨ 1 ≤ n_processes)) ↔
  __init__ cpu_count fs sched_source sched_target source_file source
    target_file target source_preprocessing target_preprocessing
    word_tokenize top_n n_processes =
  Ok (dataset_of source_preprocessing target_preprocessing word_tokenize sl tl).
Proof.
  intros Hsl Htl Hss Hst. split.
  - intros (Hne & Hlen & Hnp). by apply init_ok.
  - intros (sl' & tl' & Hsl' & Htl' & Hne & Hlen & Hnp & _)%init_inv.
    rewrite Hsl in Hsl'. rewrite Htl in Htl'.
    injection Hsl' as <-. injection Htl' as <-. done.
Qed.

Lemma construction_succeeds_iff_witness :
  __init__ 2 ∅ [1; 0]%nat [0; 1]%nat None (Some [PStr "a"; PStr "b"])
    None (Some [PStr "x"; PStr "y"]) None None None (-1) 3 =
  Ok (dataset_of None None None [PStr "a"; PStr "b"] [PStr "x"; PStr "y"]).
Proof.
  apply (construction_succeeds_iff 2 ∅ [1; 0]%nat [0; 1]%nat None
           (Some [PStr "a"; PStr "b"]) None (Some [PStr "x"; PStr "y"])
           None None None (-1) 3 [PStr "a"; PStr "b"] [PStr "x"; PStr "y"]).
  - reflexivity.
  - reflexivity.
  - apply Permutation_swap.
  - reflexivity.
  - split; [discriminate|]. split; [by right|]. right. lia.
Defined.

(** X15.  When the line counts pass the assertion, a constructor that has
    no source line at all, or is given a worker count of zero or below
    [-1], fails with the [ValueError] of the pool.  In particular a
    dataset cannot be built from nothing. *)
Theorem construction_needs_a_pool
    (cpu_count : positive) (fs : filesystem) (sched_source sched_target : list nat)
    (source_file : option string) (source : option (list pyval))
    (target_file : option string) (target : option (list pyval))
    (source_preprocessing target_preprocessing : option (list transform))
    (word_tokenize : option transform) (top_n n_processes : Z)
    (sl tl : list pyval) :
  load fs source_file source top_n = Ok sl →
  load fs target_file target top_n = Ok tl →
  (tl = [] ∨ length sl = length tl) →
  (sl = [] ∨ (n_processes ≠ -1 ∧ n_processes < 1)) →
  __init__ cpu_count fs sched_source sched_target source_file source
    target_file target source_preprocessing target_preprocessing
    word_tokenize top_n n_processes = Err ValueError.
Proof.
  intros Hsl Htl Hlen Hbad. unfold __init__. rewrite Hsl, Htl. simpl.
  assert (resolved_pool cpu_count n_processes (length sl) < 1) as Hpool.
  { unfold resolved_pool. destruct Hbad as [->|[Hne Hlt]].
    - simpl. lia.
    - rewrite decide_False by done. lia. }
  rewrite (parallel_preprocess_no_pool _ _ sl) by done.
  destruct (decide (length tl = 0%nat)) as [Hz|Hz]; [done|].
  destruct Hlen as [->|Hlen]; [done|]. by rewrite decide_True.
Qed.

Lemma construction_needs_a_pool_witness :
  __init__ 4 ∅ [] [] None None None None None None None (-1) (-1)
    = Err ValueError.
Proof.
  apply (construction_needs_a_pool 4 ∅ [] [] None None None None None None None
           (-1) (-1) [] []).
  - reflexivity.
  - reflexivity.
  - by left.
  - by left.
Defined.

(** X16.  With a tokenizer the two source sequences stay aligned: they have
    the same length, every entry of the text sequence is a non-empty
    processed value (the raw lines are not kept), and entry [i] of the
    processed sequence is the tokenizer applied to each element of entry
    [i] of the text sequence. *)
Theorem tokenized_sequences_are_aligned
    (cpu_count : positive) (fs : filesystem) (sched_source sched_target : list nat)
    (source_file : option string) (source : option (list pyval))
    (target_file : option string) (target : option (list pyval))
    (source_preprocessing target_preprocessing : option (list transform))
    (tok : transform) (top_n n_processes : Z) (d : t) :
  __init__ cpu_count fs sched_source sched_target source_file source
    target_file target source_preprocessing target_preprocessing
    (Some tok) top_n n_processes = Ok d →
  length (get_source d) = length (get_source_txt d) ∧
  ∀ (i : nat) (txt : pyval), get_source_txt d !! i = Some txt →
    nonempty txt ∧
    get_source d !! i = Some (PList (tok <$> py_iter txt)) ∧
    ∃ line, txt = run_pipeline source_preprocessing line.
Proof.
  intros (sl & tl & _ & _ & _ & _ & _ & ->)%init_inv.
  unfold get_source, get_source_txt, dataset_of, corpus_txt, corpus_processed.
  simpl. split; [by rewrite !length_fmap|].
  intros i txt Hi. rewrite list_lookup_fmap in Hi |- *.
  destruct (kept_lines source_preprocessing sl !! i) as [line|] eqn:Hline;
    [|done].
  simpl in Hi. injection Hi as <-. split; [|split; [done|by exists line]].
  apply list_elem_of_lookup_2 in Hline.
  by apply list_elem_of_filter in Hline as [Hne _].
Qed.

Lemma tokenized_sequences_are_aligned_witness :
  length (get_source (Build [PStr "b"] None [PList [PList [PStr "b"]]] Unassigned))
  = length (get_source_txt
              (Build [PStr "b"] None [PList [PList [PStr "b"]]] Unassigned)).
Proof.
  apply (tokenized_sequences_are_aligned 2 ∅ [0; 1]%nat [] None
           (Some [PStr ""; PStr "b"]) None None None None (λ s, PList [s])
           (-1) (-1)).
  reflexivity.
Defined.

Lemma list_getitem_out_of_range {A : Type} (l : list A) (idx : Z) :
  ¬ (- Z.of_nat (length l) ≤ idx < Z.of_nat (length l)) →
  list_getitem l idx = Err IndexError.
Proof.
  intros Hidx. unfold list_getitem. cbv zeta.
  set (i := if decide (idx < 0) then idx + Z.of_nat (length l) else idx).
  assert (¬ (0 ≤ i < Z.of_nat (length l))) as Hi by (subst i; case_decide; lia).
  by rewrite decide_False.
Qed.

(** X17.  On a materialized dataset [get(i)] succeeds exactly for
    [-m <= i < m], where [m] is [length()] without a target and the
    smaller of the two processed lengths with one; for every other index
    it raises [IndexError]. *)
Theorem getitem_domain (d : t) (idx : Z) :
  materialized d →
  let m := match get_target d with
           | Ok target => (__len__ d `min` length target)%nat
           | Err _ => __len__ d
           end in
  (- Z.of_nat m ≤ idx < Z.of_nat m → ∃ rec, __getitem__ d idx = Ok rec) ∧
  (¬ (- Z.of_nat m ≤ idx < Z.of_nat m) → __getitem__ d idx = Err IndexError).
Proof.
  intros [Hlen Hwf]%materialized_well_formed.
  unfold get_target, __len__, __getitem__.
  destruct (_target_txt d) as [target_txt|] eqn:Htxt,
           (_target d) as [|target] eqn:Htgt; try done; simpl; split.
  - intros Hidx.
    destruct (list_getitem_in_range (_source d) idx) as [? ->]; [lia|].
    destruct (list_getitem_in_range (_source_txt d) idx) as [? ->]; [lia|].
    destruct (list_getitem_in_range target idx) as [? ->]; [lia|].
    destruct (list_getitem_in_range target_txt idx) as [? ->]; [lia|].
    simpl. by eexists.
  - intros Hidx.
    destruct (decide (- Z.of_nat (length (_source d)) ≤ idx
                      < Z.of_nat (length (_source d)))) as [Hin|Hout].
    + destruct (list_getitem_in_range (_source d) idx) as [? ->]; [lia|].
      destruct (list_getitem_in_range (_source_txt d) idx) as [? ->]; [lia|].
      simpl. rewrite (list_getitem_out_of_range target) by lia. done.
    + by rewrite (list_getitem_out_of_range (_source d)).
  - intros Hidx.
    destruct (list_getitem_in_range (_source d) idx) as [? ->]; [lia|].
    destruct (list_getitem_in_range (_source_txt d) idx) as [? ->]; [lia|].
    simpl. by eexists.
  - intros Hidx. by rewrite (list_getitem_out_of_range (_source d)).
Qed.

Lemma getitem_domain_witness :
  (∃ rec, __getitem__ short_target (-1) = Ok rec) ∧
  __getitem__ short_target 1 = Err IndexError.
Proof.
  destruct (getitem_domain short_target (-1) short_target_materialized)
    as [Hin _].
  destruct (getitem_domain short_target 1 short_target_materialized)
    as [_ Hout].
  split.
  - apply Hin. unfold __len__. simpl. lia.
  - apply Hout. unfold __len__. simpl. lia.
Defined.

(** X18.  A negative bound is taken as a Python slice end: [shorten(n)]
    with [n < 0] drops the last [-n] entries of every sequence the
    instance owns, each counted from that sequence's own end, and empties
    a sequence that has no more than [-n] entries. *)
Theorem shorten_negative_drops_tail (σ : gmap loc t) (self : loc) (d : t) (n : Z) :
  materialized d → σ !! self = Some d → n < 0 →
  let cut (l : list pyval) := take (Z.to_nat (Z.of_nat (length l) + n)) l in
  let d' := Build (cut (_source_txt d)) (cut <$> _target_txt d)
              (cut (_source d)) (attr_map cut (_target d)) in
  shorten self (Some n) σ = Ok (self, <[self := d']> σ) ∧
  Z.of_nat (__len__ d') = Z.max 0 (Z.of_nat (__len__ d) + n).
Proof.
  intros [_ Hwf]%materialized_well_formed Hd Hn cut d'.
  assert (∀ l : list pyval, slice_to l n = cut l) as Hcut.
  { intros l. unfold slice_to, cut. cbv zeta. rewrite decide_True by done.
    f_equal. lia. }
  split.
  - unfold shorten. rewrite Hd, decide_True by lia. subst d'.
    destruct (_target_txt d) as [target_txt|], (_target d) as [|target];
      try done; simpl; by rewrite !Hcut.
  - subst d' cut. unfold __len__. simpl. rewrite length_take. lia.
Qed.

Lemma shorten_negative_drops_tail_witness :
  shorten 0%nat (Some (-1)) {[0%nat := two_sources]} =
    Ok (0%nat,
        <[0%nat := Build [PStr "a"] None [PStr "a"] Unassigned]>
          {[0%nat := two_sources]}).
Proof.
  apply (shorten_negative_drops_tail {[0%nat := two_sources]} 0%nat
           two_sources (-1) two_sources_materialized).
  - reflexivity.
  - lia.
Defined.



Lemma corpus_processed_nonempty (pipeline : option (list transform))
    (word_tokenize : option transform) (lines : list pyval) :
  Forall nonempty (corpus_processed pipeline word_tokenize lines).
Proof.
  unfold corpus_processed, kept_lines. apply Forall_forall. intros x Hx.
  destruct word_tokenize as [tok|];
    apply list_elem_of_fmap in Hx as (line & -> & Hline);
    apply list_elem_of_filter in Hline as [Hne _]; [|done].
  by apply tokens_of_nonempty.
Qed.

Lemma slice_to_Forall {A : Type} (P : A → Prop) (l : list A) (n : Z) :
  Forall P l → Forall P (slice_to l n).
Proof. intros Hl. unfold slice_to. cbv zeta. by apply Forall_take. Qed.

(** What [shorten] can leave at its receiver: the instance as it was, or
    the instance with every sequence sliced by the same bound. *)
Lemma shorten_result (self : loc) (top_n : option Z) (σ σ' : gmap loc t)
    (d d' : t) :
  σ !! self = Some d → well_formed d →
  shorten self top_n σ = Ok (self, σ') → σ' !! self = Some d' →
  d' = d ∨
  ∃ n, d' = Build (slice_to (_source_txt d) n)
              (flip slice_to n <$> _target_txt d)
              (slice_to (_source d) n)
              (attr_map (flip slice_to n) (_target d)).
Proof.
  intros Hd [_ Hwf] Hshort Hd'. unfold shorten in Hshort. rewrite Hd in Hshort.
  destruct top_n as [n|]; [|left; by simplify_eq].
  case_decide; [|left; by simplify_eq]. right. exists n.
  destruct (_target_txt d) as [target_txt|], (_target d) as [|target];
    try done; simpl in Hshort; simplify_eq;
    rewrite lookup_insert_eq in Hd'; by simplify_eq.
Qed.

(** X20.  Every dataset a program can hold, however often it has been
    shortened, keeps these facts: the processed source is no longer than
    the source text and has no empty entry; [get_target] raises
    [AttributeError] exactly when the target text is [None]; and when
    there is a target, the processed target is no longer than the target
    text and has no empty entry either. *)
Theorem materialized_invariants (d : t) :
  materialized d →
  (length (get_source d) ≤ length (get_source_txt d))%nat ∧
  Forall nonempty (get_source d) ∧
  match get_target_txt d with
  | None => get_target d = Err AttributeError
  | Some target_txt =>
      ∃ target,
        get_target d = Ok target ∧
        (length target ≤ length target_txt)%nat ∧ Forall nonempty target
  end.
Proof.
  intros Hmat. pose proof (materialized_well_formed d Hmat) as [Hlen Hwf].
  unfold get_source, get_source_txt, get_target, get_target_txt.
  split; [done|].
  assert (Forall nonempty (_source d) ∧
          ∀ target, _target d = Assigned target → Forall nonempty target)
    as [Hsrc Htgt].
  { clear Hlen Hwf.
    induction Hmat as [? ? ? ? ? ? ? ? ? ? ? ? ? d Hinit
                      |d self top_n σ σ' d' Hmat [IHs IHt] Hd Hs Hd'].
    - apply init_inv in Hinit as (sl & tl & _ & _ & _ & _ & _ & ->).
      unfold dataset_of. simpl. split; [apply corpus_processed_nonempty|].
      intros target Htarget. destruct tl; [done|]. injection Htarget as <-.
      apply corpus_processed_nonempty.
    - destruct (shorten_result self top_n σ σ' d d' Hd
                  (materialized_well_formed d Hmat) Hs Hd') as [->|[n ->]];
        [done|]. simpl. split; [by apply slice_to_Forall|].
      intros target Htarget. destruct (_target d) as [|tg]; [done|].
      simpl in Htarget. injection Htarget as <-.
      apply slice_to_Forall. by apply IHt. }
  split; [done|].
  destruct (_target_txt d) as [target_txt|], (_target d) as [|target];
    try done. exists target. split; [done|]. split; [done|]. by apply Htgt.
Qed.

Lemma materialized_invariants_witness :
  (length (get_source short_target) ≤ length (get_source_txt short_target))%nat ∧
  ∃ target,
    get_target short_target = Ok target ∧
    (length target ≤ 2)%nat ∧ Forall nonempty target.
Proof.
  destruct (materialized_invariants short_target short_target_materialized)
    as (Hlen & _ & Htarget).
  split; [exact Hlen | exact Htarget].
Defined.

(** X21.  Shortening and exporting commute: after [shorten(n)] with
    [0 <= n <= length()], [save_to_jsonl] writes the first [n] of the
    records it would have written before. *)
Theorem save_after_shorten (σ σ' : gmap loc t) (self : loc) (d d' : t) (n : Z)
    (records : list json) :
  materialized d → σ !! self = Some d →
  0 ≤ n ≤ Z.of_nat (__len__ d) →
  shorten self (Some n) σ = Ok (self, σ') → σ' !! self = Some d' →
  save_to_jsonl d = Ok records →
  save_to_jsonl d' = Ok (take (Z.to_nat n) records).
Proof.
  intros [_ Hwf]%materialized_well_formed Hd Hn Hshort Hd' Hsave.
  unfold __len__ in Hn. unfold shorten in Hshort. rewrite Hd in Hshort.
  rewrite decide_True in Hshort by lia. unfold save_to_jsonl in *.
  destruct (_target_txt d) as [target_txt|] eqn:Htxt,
           (_target d) as [|target] eqn:Htgt; try done; simpl in *;
    injection Hshort as <-; injection Hsave as <-;
    rewrite lookup_insert_eq in Hd'; injection Hd' as <-; simpl;
    rewrite !slice_to_nonneg by lia.
  - by rewrite <- zip_with_take, fmap_take.
  - by rewrite fmap_take.
Qed.

Lemma save_after_shorten_witness :
  save_to_jsonl (Build [PStr "a"] None [PStr "a"] Unassigned) =
    Ok (take (Z.to_nat 1)
          [JObject [("src", JString "a")]; JObject [("src", JString "b")]]).
Proof.
  apply (save_after_shorten {[0%nat := two_sources]}
           (<[0%nat := Build [PStr "a"] None [PStr "a"] Unassigned]>
              {[0%nat := two_sources]})
           0%nat two_sources _ 1 _ two_sources_materialized).
  - reflexivity.
  - unfold __len__. simpl. lia.
  - reflexivity.
  - apply lookup_insert_eq.
  - reflexivity.
Defined.
